(** * Plant monitoring and automatic watering: the control program of
    [Pico_main.py], embedded in Rocq, and the properties of its
    scheduling core.

    The program is a MicroPython script: module-level pin objects, eight
    small functions and a [main] with an endless loop.  It talks to the
    board (pins, a PWM channel, an ADC, a DHT22), to the clock and to the
    network.  The embedding makes all of that explicit:

    - the board, the clock and the log of effects are a record [World];
    - what the outside answers (ADC samples, DHT measurements, whether a
      [time.sleep] is interrupted, whether an HTTP request fails) is an
      oracle [Env], indexed by the number of calls made so far;
    - a Python function is a computation [M A]: it takes the world and
      gives back either a value or a raised exception, with the world as
      the call left it.  The script has no [try], so a raised exception
      leaves every function it passes through at once. *)

From Stdlib Require Import ZArith List String Ascii Bool Lia DecimalString.
Import ListNotations.
Open Scope Z_scope.

(** ** Exceptions and results *)

(** The two exceptions that can reach the script: [OSError] (a DHT22
    that does not answer, a failed socket) and [KeyboardInterrupt]
    (which MicroPython delivers also inside [time.sleep]). *)
Inductive exn : Type :=
| OSError (errno : Z)
| KeyboardInterrupt.

Inductive result (A : Type) : Type :=
| Ok (a : A)
| Raise (e : exn).
Arguments Ok {A} a.
Arguments Raise {A} e.

(** ** The board and the log *)

(** The [machine.Pin] objects of the configuration block (lines 43-50). *)
Inductive pin : Type := HEAT_PIN_TEMP | HEAT_PIN_SOIL | IN1 | IN2.

Definition pin_eqb (p q : pin) : bool :=
  match p, q with
  | HEAT_PIN_TEMP, HEAT_PIN_TEMP | HEAT_PIN_SOIL, HEAT_PIN_SOIL
  | IN1, IN1 | IN2, IN2 => true
  | _, _ => false
  end.

(** The three fields of the telemetry request of [upload_values].  The
    DHT22 values are kept in tenths of a unit, the resolution of the
    sensor; how MicroPython prints the floats inside the query string is
    outside the model, so the request is logged by its fields. *)
Record readings : Type := mkReadings {
  field1 : Z;   (* soil, raw ADC value *)
  field2 : Z;   (* temperature, tenths of a degree *)
  field3 : Z    (* relative humidity, tenths of a percent *)
}.

(** Effects in the order they happened, most recent first. *)
Inductive event : Type :=
| EPin (p : pin) (v : Z)            (* p.value(v) *)
| EDuty (d : Z)                     (* ENA.duty_u16(d) *)
| ESleep (s : Z)                    (* a time.sleep(s) that returned *)
| EInterrupt (s : Z) (e : exn)      (* a time.sleep(s) that raised e *)
| EAdc (raw : Z)                    (* ADC_SOIL.read_u16() returned raw *)
| EDht (temp hum : Z)               (* DHT_SENSOR.measure() succeeded *)
| EGet (api_key : string) (r : readings)   (* requests.get answered *)
| EPost (api_key : string) (status : string). (* requests.post answered *)

Record World : Type := mkWorld {
  clock : Z;                 (* time.time(), seconds since the epoch *)
  pins : pin -> Z;           (* level last written to each pin *)
  ena_duty : Z;              (* duty last written to the PWM channel ENA *)
  dht_buf : Z * Z;           (* what the last DHT measure() stored *)
  adc_calls : nat;           (* number of read_u16() calls so far *)
  dht_calls : nat;           (* number of measure() calls so far *)
  sleep_calls : nat;         (* number of time.sleep() calls so far *)
  http_calls : nat;          (* number of HTTP requests so far *)
  trace : list event
}.

(** What the outside answers to the k-th call of each kind. *)
Record Env : Type := mkEnv {
  adc_read_u16 : nat -> result Z;
  dht_measure : nat -> result (Z * Z);
  sleep_fault : nat -> option exn;
  http_fault : nat -> option exn
}.

Definition log (e : event) (w : World) : World :=
  mkWorld (clock w) (pins w) (ena_duty w) (dht_buf w)
          (adc_calls w) (dht_calls w) (sleep_calls w) (http_calls w)
          (e :: trace w).

Definition set_pin (p : pin) (v : Z) (w : World) : World :=
  mkWorld (clock w) (fun q => if pin_eqb q p then v else pins w q)
          (ena_duty w) (dht_buf w)
          (adc_calls w) (dht_calls w) (sleep_calls w) (http_calls w)
          (trace w).

Definition set_duty (d : Z) (w : World) : World :=
  mkWorld (clock w) (pins w) d (dht_buf w)
          (adc_calls w) (dht_calls w) (sleep_calls w) (http_calls w)
          (trace w).

Definition set_dht (b : Z * Z) (w : World) : World :=
  mkWorld (clock w) (pins w) (ena_duty w) b
          (adc_calls w) (dht_calls w) (sleep_calls w) (http_calls w)
          (trace w).

Definition advance (s : Z) (w : World) : World :=
  mkWorld (clock w + s) (pins w) (ena_duty w) (dht_buf w)
          (adc_calls w) (dht_calls w) (sleep_calls w) (http_calls w)
          (trace w).

Definition count_adc (w : World) : World :=
  mkWorld (clock w) (pins w) (ena_duty w) (dht_buf w)
          (S (adc_calls w)) (dht_calls w) (sleep_calls w) (http_calls w)
          (trace w).

Definition count_dht (w : World) : World :=
  mkWorld (clock w) (pins w) (ena_duty w) (dht_buf w)
          (adc_calls w) (S (dht_calls w)) (sleep_calls w) (http_calls w)
          (trace w).

Definition count_sleep (w : World) : World :=
  mkWorld (clock w) (pins w) (ena_duty w) (dht_buf w)
          (adc_calls w) (dht_calls w) (S (sleep_calls w)) (http_calls w)
          (trace w).

Definition count_http (w : World) : World :=
  mkWorld (clock w) (pins w) (ena_duty w) (dht_buf w)
          (adc_calls w) (dht_calls w) (sleep_calls w) (S (http_calls w))
          (trace w).

(** ** Computations *)

Definition M (A : Type) : Type := World -> result A * World.

Definition ret {A : Type} (a : A) : M A := fun w => (Ok a, w).

Definition bind {A B : Type} (c : M A) (k : A -> M B) : M B :=
  fun w =>
    match c w with
    | (Ok a, w1) => k a w1
    | (Raise e, w1) => (Raise e, w1)
    end.

Declare Scope py_scope.
Delimit Scope py_scope with py.
Notation "x <- c ;; k" := (bind c (fun x => k))
  (at level 100, c at next level, right associativity) : py_scope.
Notation "c ;; k" := (bind c (fun _ => k))
  (at level 100, right associativity) : py_scope.
Open Scope py_scope.

(** ** Calendar time *)

(** The first six entries of the tuple [time.localtime] returns, the
    only ones the script reads ([now[3]] and [t[:6]]). *)
Record struct_time : Type := mkTime {
  tm_year : Z; tm_mon : Z; tm_mday : Z;
  tm_hour : Z; tm_min : Z; tm_sec : Z
}.

(** Gregorian date of a day number counted from 1970-01-01. *)
Definition date_of_days (days : Z) : Z * Z * Z :=
  let shifted := days + 719468 in           (* days since 0000-03-01 *)
  let cycle := shifted / 146097 in          (* 400-year cycle *)
  let dcycle := shifted mod 146097 in
  let ycycle :=
    (dcycle - dcycle / 1460 + dcycle / 36524 - dcycle / 146096) / 365 in
  let dyear := dcycle - (365 * ycycle + ycycle / 4 - ycycle / 100) in
  let mshift := (5 * dyear + 2) / 153 in    (* month, March = 0 *)
  let mday := dyear - (153 * mshift + 2) / 5 + 1 in
  let mon := if mshift <? 10 then mshift + 3 else mshift - 9 in
  let year := ycycle + 400 * cycle + (if mon <=? 2 then 1 else 0) in
  (year, mon, mday).

(** [time.localtime(secs)] of the RP2040 port: no time zone, epoch 1970. *)
Definition localtime (secs : Z) : struct_time :=
  let '(y, m, d) := date_of_days (secs / 86400) in
  let rest := secs mod 86400 in
  mkTime y m d (rest / 3600) (rest mod 3600 / 60) (rest mod 60).

(** ["{:0Nd}".format(n)]: decimal, zero-padded to [width] characters. *)
Definition digits (n : Z) : string :=
  NilZero.string_of_uint (N.to_uint (Z.to_N n)).

Fixpoint zeros (k : nat) : string :=
  match k with
  | O => EmptyString
  | S k' => String "0"%char (zeros k')
  end.

Definition zfill (width : nat) (s : string) : string :=
  (zeros (width - String.length s) ++ s)%string.

Definition format_0d (width : nat) (n : Z) : string :=
  if n <? 0 then ("-" ++ zfill (width - 1) (digits (- n)))%string
  else zfill width (digits n).

(** The timestamp of line 146: year, month and day joined by dashes, a
    blank, then hour, minute and second joined by colons, the year on
    four digits and the others on two, from the entries 0 to 5 of [t]. *)
Definition format_timestamp (t : struct_time) : string :=
  (format_0d 4 (tm_year t) ++ "-" ++ format_0d 2 (tm_mon t) ++ "-"
   ++ format_0d 2 (tm_mday t) ++ " " ++ format_0d 2 (tm_hour t) ++ ":"
   ++ format_0d 2 (tm_min t) ++ ":" ++ format_0d 2 (tm_sec t))%string.

(** ** Configuration (lines 37-39) *)

Definition API_KEY : string := "xxxxxxxxxxxxxxxx".

(** ** The program *)

(** The local variables of [main] that live across iterations. *)
Record Locals : Type := mkLocals {
  last_upload : Z;
  hour : Z;
  plant_watered : bool
}.

Section Program.

Variable env : Env.

(** *** Library calls *)

Definition pin_value (p : pin) (v : Z) : M unit :=
  fun w => (Ok tt, log (EPin p v) (set_pin p v w)).

Definition duty_u16 (d : Z) : M unit :=
  fun w => (Ok tt, log (EDuty d) (set_duty d w)).

Definition time_time : M Z :=
  fun w => (Ok (clock w), w).

(** [time.sleep(s)]: the clock moves on by [s] seconds, unless the sleep
    is interrupted. *)
Definition time_sleep (s : Z) : M unit :=
  fun w =>
    match sleep_fault env (sleep_calls w) with
    | None => (Ok tt, log (ESleep s) (advance s (count_sleep w)))
    | Some e => (Raise e, log (EInterrupt s e) (count_sleep w))
    end.

Definition read_u16 : M Z :=
  fun w =>
    match adc_read_u16 env (adc_calls w) with
    | Ok raw => (Ok raw, log (EAdc raw) (count_adc w))
    | Raise e => (Raise e, count_adc w)
    end.

Definition measure : M unit :=
  fun w =>
    match dht_measure env (dht_calls w) with
    | Ok (t, h) => (Ok tt, log (EDht t h) (set_dht (t, h) (count_dht w)))
    | Raise e => (Raise e, count_dht w)
    end.

Definition temperature : M Z := fun w => (Ok (fst (dht_buf w)), w).
Definition humidity : M Z := fun w => (Ok (snd (dht_buf w)), w).

Definition requests_get (key : string) (r : readings) : M unit :=
  fun w =>
    match http_fault env (http_calls w) with
    | None => (Ok tt, log (EGet key r) (count_http w))
    | Some e => (Raise e, count_http w)
    end.

Definition requests_post (key status : string) : M unit :=
  fun w =>
    match http_fault env (http_calls w) with
    | None => (Ok tt, log (EPost key status) (count_http w))
    | Some e => (Raise e, count_http w)
    end.

(** *** WiFi and time (lines 73-76) *)

Definition get_current_time (timezone_offset : Z) : M struct_time :=
  now <- time_time ;;
  ret (localtime (now + timezone_offset * 3600)).

(** *** Sensors (lines 83-104).  [verbose] only prints, and console
    output is not part of the world. *)

Definition get_temperature : M (Z * Z) :=
  pin_value HEAT_PIN_TEMP 1 ;;
  time_sleep 1 ;;
  measure ;;
  temp <- temperature ;;
  hum <- humidity ;;
  pin_value HEAT_PIN_TEMP 0 ;;
  ret (temp, hum).

Definition get_soil_humidity : M Z :=
  pin_value HEAT_PIN_SOIL 1 ;;
  time_sleep 1 ;;
  raw <- read_u16 ;;
  pin_value HEAT_PIN_SOIL 0 ;;
  ret raw.

(** *** Motor control (lines 111-122) *)

Definition motor_forward (speed : Z) : M unit :=
  pin_value IN1 1 ;;
  pin_value IN2 0 ;;
  duty_u16 speed.

Definition motor_stop : M unit :=
  duty_u16 0 ;;
  pin_value IN1 0 ;;
  pin_value IN2 0.

(** *** ThingSpeak (lines 129-154) *)

Definition upload_values : M unit :=
  field1_value <- get_soil_humidity ;;
  time_sleep 2 ;;
  th <- get_temperature ;;
  time_sleep 2 ;;
  requests_get API_KEY (mkReadings field1_value (fst th) (snd th)).

Definition channel_update (msg : string) : M unit :=
  now <- time_time ;;
  let t := localtime now in
  let timestamp := format_timestamp t in
  let status_message := ("[" ++ timestamp ++ "] - " ++ msg)%string in
  requests_post API_KEY status_message.

(** *** Main program (lines 161-199) *)

(** [hour in (8, 20)] *)
Definition in_window (h : Z) : bool := (h =? 8) || (h =? 20).

(** Lines 180-183: the hourly upload. *)
Definition upload_branch (current_time : Z) (st : Locals) : M Locals :=
  if current_time - last_upload st >=? 3600 then
    upload_values ;;
    ret (mkLocals current_time ((hour st + 1) mod 24) (plant_watered st))
  else ret st.

(** Lines 186-197: the watering decision. *)
Definition watering_branch (st : Locals) : M Locals :=
  if in_window (hour st) then
    if negb (plant_watered st) then
      soil_value <- get_soil_humidity ;;
      if soil_value >? 16000 then
        motor_forward 32768 ;;
        time_sleep 60 ;;
        motor_stop ;;
        channel_update "Plants watered!" ;;
        ret (mkLocals (last_upload st) (hour st) true)
      else ret st
    else ret st
  else ret (mkLocals (last_upload st) (hour st) false).

(** Lines 177-199: one iteration of [while True]. *)
Definition tick (st : Locals) : M Locals :=
  current_time <- time_time ;;
  st1 <- upload_branch current_time st ;;
  st2 <- watering_branch st1 ;;
  time_sleep 30 ;;
  ret st2.

(** Lines 169-174, after the WiFi association and the NTP
    synchronisation: the clock of the world is the synchronised clock. *)
Definition main_init : M Locals :=
  now <- get_current_time 2 ;;
  let hour0 := tm_hour now in
  channel_update "System ON!" ;;
  last_upload0 <- time_time ;;
  ret (mkLocals last_upload0 hour0 false).

(** The loop never ends by itself; [fuel] is the number of iterations
    looked at.  [Ok st] means that the loop is still running, with these
    locals; [Raise e] that [e] left [main]. *)
Fixpoint main_loop (fuel : nat) (st : Locals) : M Locals :=
  match fuel with
  | O => ret st
  | S fuel' => st' <- tick st ;; main_loop fuel' st'
  end.

Definition main (fuel : nat) : M Locals :=
  st <- main_init ;;
  main_loop fuel st.

End Program.

(** ** Observations on a world *)

(** The pump is at rest: no duty, both direction pins low. *)
Definition pump_stopped (w : World) : Prop :=
  ena_duty w = 0 /\ pins w IN1 = 0 /\ pins w IN2 = 0.

Definition is_actuation (e : event) : bool :=
  match e with
  | EDuty d => negb (d =? 0)
  | _ => false
  end.

Definition is_upload (e : event) : bool :=
  match e with
  | EGet _ _ => true
  | _ => false
  end.

(** How often the pump was set going, and how many telemetry uploads
    were made, in a log. *)
Definition actuations (tr : list event) : nat :=
  List.length (filter is_actuation tr).

Definition uploads (tr : list event) : nat :=
  List.length (filter is_upload tr).

(** The call did not touch the pump: same duty, same direction pins, no
    new actuation in the log. *)
Definition pump_frame (w w' : World) : Prop :=
  ena_duty w' = ena_duty w /\ pins w' IN1 = pins w IN1
  /\ pins w' IN2 = pins w IN2
  /\ actuations (trace w') = actuations (trace w).

(** The pump has been set going by the watering branch and the sleep of
    60 seconds raised [e]: the call ends there, with the pump on. *)
Definition run_interrupted (r : result Locals) (w' : World) : Prop :=
  exists e, r = Raise e
    /\ hd_error (trace w') = Some (EInterrupt 60 e)
    /\ ena_duty w' = 32768 /\ pins w' IN1 = 1 /\ pins w' IN2 = 0.

(** The heater pin [p] after a sensor call: low if the call returned,
    still high if it raised. *)
Definition heater_after {A : Type} (p : pin) (out : result A * World) : Prop :=
  match fst out with
  | Ok _ => pins (snd out) p = 0
  | Raise _ => pins (snd out) p = 1
  end.

(** The hour stays in the watering window over the next [n] iterations:
    each of them that runs to its end leaves [hour] in (8, 20).  [hour]
    changes only in the upload branch, so this is the hour its watering
    branch tested. *)
Fixpoint window_run (env : Env) (n : nat) (st : Locals) (w : World) : bool :=
  match n with
  | O => true
  | S n' =>
      match tick env st w with
      | (Ok st', w') => in_window (hour st') && window_run env n' st' w'
      | (Raise _, _) => true
      end
  end.

(** The shape of an iteration: the upload branch, then the watering
    branch, then the sleep, each reached only if the one before
    returned. *)
Inductive tick_path (env : Env) (st : Locals) (w : World) (r : result Locals)
  (w' : World) : Prop :=
| path_upload_raised e :
    upload_branch env (clock w) st w = (Raise e, w') ->
    r = Raise e ->
    tick_path env st w r w'
| path_watering_raised st1 w1 e :
    upload_branch env (clock w) st w = (Ok st1, w1) ->
    watering_branch env st1 w1 = (Raise e, w') ->
    r = Raise e ->
    tick_path env st w r w'
| path_sleep_raised st1 w1 st2 w2 e :
    upload_branch env (clock w) st w = (Ok st1, w1) ->
    watering_branch env st1 w1 = (Ok st2, w2) ->
    time_sleep env 30 w2 = (Raise e, w') ->
    r = Raise e ->
    tick_path env st w r w'
| path_done st1 w1 st2 w2 :
    upload_branch env (clock w) st w = (Ok st1, w1) ->
    watering_branch env st1 w1 = (Ok st2, w2) ->
    time_sleep env 30 w2 = (Ok tt, w') ->
    r = Ok st2 ->
    tick_path env st w r w'.

(** ** Scenarios *)

(** A board just started at time [t0]: pins low, no duty, empty log. *)
Definition world0 (t0 : Z) : World :=
  mkWorld t0 (fun _ => 0) 0 (0, 0) 0%nat 0%nat 0%nat 0%nat [].

(** An outside where nothing fails; the soil reads [raw] every time. *)
Definition calm (raw : Z) : Env :=
  mkEnv (fun _ => Ok raw) (fun _ => Ok (215, 480))
        (fun _ => None) (fun _ => None).

(** Nothing fails, except that the [k]-th sleep is interrupted. *)
Definition interrupted_at (k : nat) (raw : Z) : Env :=
  mkEnv (fun _ => Ok raw) (fun _ => Ok (215, 480))
        (fun i => if Nat.eqb i k then Some KeyboardInterrupt else None)
        (fun _ => None).

(** The soil reads 10000 the first time and 20000 afterwards. *)
Definition drying_soil : Env :=
  mkEnv (fun i => Ok (if Nat.eqb i 0 then 10000 else 20000))
        (fun _ => Ok (215, 480)) (fun _ => None) (fun _ => None).

(** The ADC read raises. *)
Definition adc_broken : Env :=
  mkEnv (fun _ => Raise (OSError 5)) (fun _ => Ok (215, 480))
        (fun _ => None) (fun _ => None).

(** The DHT22 does not answer. *)
Definition dht_silent : Env :=
  mkEnv (fun _ => Ok 20000) (fun _ => Raise (OSError 110))
        (fun _ => None) (fun _ => None).

(** The board is synchronised at 2025-07-01 05:30:00 UTC, which is 07:30
    on the clock of [get_current_time]; nothing fails and the soil is
    wet.  [half_hour_later] is [main] after 60 iterations. *)
Definition boot_0730 : World := world0 1751347800.
Definition half_hour_later : result Locals * World :=
  main (calm 0) 60 boot_0730.

(** An iteration at hour 8 with dry soil; six of them in a row; and
    three asked for, of which the first has its run of 60 seconds (the
    second sleep) interrupted. *)
Definition dry_tick : result Locals * World :=
  tick (calm 20000) (mkLocals 0 8 false) (world0 100).
Definition six_dry_ticks : result Locals * World :=
  main_loop (calm 20000) 6 (mkLocals 0 8 false) (world0 100).
Definition interrupted_run : result Locals * World :=
  main_loop (interrupted_at 1 20000) 3 (mkLocals 0 8 false) (world0 100).

(** An iteration in which the upload is due, at hour 7, wet soil. *)
Definition due_tick : result Locals * World :=
  tick (calm 0) (mkLocals 1000 7 false) (world0 4600).

(** The watering branch at hour 8 reading wet soil. *)
Definition wet_check : result Locals * World :=
  watering_branch (calm 12000) (mkLocals 0 8 false) (world0 100).

(** Two iterations at hour 8 while the soil dries. *)
Definition second_look : result Locals * World :=
  main_loop drying_soil 2 (mkLocals 0 8 false) (world0 100).

(** Five iterations asked of the loop at hour 8 with a broken ADC. *)
Definition broken_adc_run : result Locals * World :=
  main_loop adc_broken 5 (mkLocals 0 8 false) (world0 100).

(** Dry soil at hour 7, with the upload due and not due. *)
Definition upload_then_water : result Locals * World :=
  tick (calm 20000) (mkLocals 1000 7 false) (world0 4600).
Definition no_upload_no_water : result Locals * World :=
  tick (calm 20000) (mkLocals 1001 7 false) (world0 4600).

(** An iteration at hour 9 entered with the flag set. *)
Definition tick_at_nine : result Locals * World :=
  tick (calm 20000) (mkLocals 0 9 true) (world0 100).

(** The first status post of [main]. *)
Definition status_at_boot : result unit * World :=
  channel_update (calm 0) "System ON!" boot_0730.

(** The watering branch at hour 8 reading dry soil. *)
Definition dry_check : result Locals * World :=
  watering_branch (calm 20000) (mkLocals 0 8 false) (world0 100).

(** 125 iterations from hour 23, wet soil: the upload of the 121st
    takes the hour over midnight. *)
Definition midnight_run : result Locals * World :=
  main_loop (calm 0) 125 (mkLocals 0 23 false) (world0 0).

(** [main] for 125 iterations from the start at 07:30. *)
Definition morning_run : result Locals * World :=
  main (calm 0) 125 boot_0730.

(** One upload cycle. *)
Definition one_upload : result unit * World :=
  upload_values (calm 12000) (world0 100).

(** The upload falls due at hour 7 and the DHT22 does not answer. *)
Definition silent_dht_run : result Locals * World :=
  main_loop dht_silent 3 (mkLocals 0 7 false) (world0 3600).

(** [main] started at 06:00 UTC, 08:00 with the offset, on dry soil. *)
Definition boot_at_eight : result Locals * World :=
  main (calm 20000) 1 (world0 21600).

(** ** Start-up (lines 59-70 and 163-167) *)

(** What the network answers while the board starts: the [k]-th call of
    [wlan.isconnected()], and what [ntptime.settime()] does, the time it
    writes to the clock or the exception it raises. *)
Record Start : Type := mkStart {
  wlan_isconnected : nat -> bool;
  ntp_settime : result Z
}.

Definition set_clock (t : Z) (w : World) : World :=
  mkWorld t (pins w) (ena_duty w) (dht_buf w)
          (adc_calls w) (dht_calls w) (sleep_calls w) (http_calls w)
          (trace w).

Section Startup.

Variable env : Env.
Variable net : Start.

(** The loop of lines 65-67, about to make the [k]-th call of
    [isconnected].  It has no bound of its own; [fuel] is the number of
    calls looked at.  [Ok true]: the loop has ended; [Ok false]: after
    [fuel] calls the board is still waiting. *)
Fixpoint wait_connected (fuel k : nat) : M bool :=
  match fuel with
  | O => ret false
  | S fuel' =>
      if wlan_isconnected net k then ret true
      else time_sleep env 2 ;; wait_connected fuel' (S k)
  end.

(** Lines 59-70.  [wlan.active] and [wlan.connect] change nothing the
    world records. *)
Definition connect_to_wifi (fuel : nat) : M bool :=
  wait_connected fuel 0.

(** [ntptime.settime()] *)
Definition settime : M unit :=
  fun w =>
    match ntp_settime net with
    | Ok t => (Ok tt, set_clock t w)
    | Raise e => (Raise e, w)
    end.

(** [main] from its first line (163).  [None]: the board is still
    waiting for the WiFi after [fuel_wifi] calls of [isconnected]. *)
Definition main_from_reset (fuel_wifi fuel : nat) : M (option Locals) :=
  connected <- connect_to_wifi fuel_wifi ;;
  if connected then
    settime ;;
    st <- main env fuel ;;
    ret (Some st)
  else ret None.

End Startup.

(** Networks for the start-up: the WiFi is up from the [k]-th call of
    [isconnected] on and NTP answers [t]; the WiFi never comes up; the
    WiFi is up at once and NTP fails. *)
Definition wifi_after (k : nat) (t : Z) : Start :=
  mkStart (fun j => Nat.leb k j) (Ok t).
Definition no_wifi : Start :=
  mkStart (fun _ => false) (Ok 1751347800).
Definition ntp_down : Start :=
  mkStart (fun _ => true) (Raise (OSError 110)).

(** ** More observations *)

Definition is_status (e : event) : bool :=
  match e with
  | EPost _ _ => true
  | _ => false
  end.

(** How many status messages were posted, in a log. *)
Definition statuses (tr : list event) : nat :=
  List.length (filter is_status tr).

(** Both heaters are off. *)
Definition heaters_off (w : World) : Prop :=
  pins w HEAT_PIN_TEMP = 0 /\ pins w HEAT_PIN_SOIL = 0.

(** * Properties *)

(** ** The calendar on known dates *)

Example localtime_epoch :
  format_timestamp (localtime 0) = "1970-01-01 00:00:00"%string.
Proof. reflexivity. Qed.

Example localtime_2023 :
  format_timestamp (localtime 1700000000) = "2023-11-14 22:13:20"%string.
Proof. reflexivity. Qed.

Example localtime_leap :
  format_timestamp (localtime 1709251199) = "2024-02-29 23:59:59"%string.
Proof. reflexivity. Qed.

(** ** Running a computation step by step *)

Arguments format_timestamp : simpl never.
Arguments localtime : simpl never.
Arguments Z.modulo : simpl never.
Arguments Z.add : simpl never.
Arguments Z.sub : simpl never.
Arguments Z.mul : simpl never.

Lemma bind_inv {A B : Type} (c : M A) (k : A -> M B) w r w' :
  bind c k w = (r, w') ->
  (exists a w1, c w = (Ok a, w1) /\ k a w1 = (r, w'))
  \/ (exists e, c w = (Raise e, w') /\ r = Raise e).
Proof.
  unfold bind. destruct (c w) as [[a | e] w1]; intros H.
  - left. exists a, w1. split; [reflexivity | exact H].
  - right. exists e. inversion H; subst. split; reflexivity.
Qed.

Lemma ret_inv {A : Type} (a : A) w r w' :
  ret a w = (r, w') -> r = Ok a /\ w' = w.
Proof. unfold ret. intros H. inversion H. split; reflexivity. Qed.

(** Splits a run [H : (c ;; k) w = (r, w')] along its first call. *)
Ltac split_bind H :=
  let a := fresh "a" in
  let w1 := fresh "w" in
  let e := fresh "e" in
  let Hc := fresh "Hcall" in
  apply bind_inv in H;
  destruct H as [(a & w1 & Hc & H) | (e & Hc & H)].

(** Case analysis on the innermost test a run is stuck on. *)
Ltac case_on_stuck H :=
  match type of H with
  | context [match ?x with _ => _ end] =>
      lazymatch x with
      | context [match _ with _ => _ end] => fail
      | _ => destruct x eqn:?
      end
  end.

Ltac run_all H :=
  cbn in H;
  repeat (case_on_stuck H; cbn in H);
  inversion H; subst; clear H; cbn.

(** ** The pump and the log across a call *)

Lemma pump_frame_refl w : pump_frame w w.
Proof. unfold pump_frame. auto. Qed.

Lemma pump_frame_trans w1 w2 w3 :
  pump_frame w1 w2 -> pump_frame w2 w3 -> pump_frame w1 w3.
Proof.
  unfold pump_frame. intros (A1 & A2 & A3 & A4) (B1 & B2 & B3 & B4).
  repeat split; congruence.
Qed.

Lemma pump_frame_stopped w w' :
  pump_frame w w' -> pump_stopped w -> pump_stopped w'.
Proof.
  unfold pump_frame, pump_stopped.
  intros (A1 & A2 & A3 & _) (B1 & B2 & B3). repeat split; congruence.
Qed.

Section Frames.

Variable env : Env.

(** [motor_forward] at a speed that is not 0 is what [actuations]
    counts; [motor_stop] brings the pump to rest and is not counted. *)
Lemma motor_forward_counted speed w :
  speed <> 0 ->
  actuations (trace (snd (motor_forward speed w)))
  = S (actuations (trace w)).
Proof.
  intros Hs. unfold motor_forward, bind, pin_value, duty_u16, actuations.
  cbn. destruct (Z.eqb_spec speed 0); [contradiction | reflexivity].
Qed.

Lemma motor_stop_rest w :
  pump_stopped (snd (motor_stop w))
  /\ actuations (trace (snd (motor_stop w))) = actuations (trace w).
Proof.
  unfold motor_stop, bind, pin_value, duty_u16, pump_stopped, actuations.
  cbn. auto.
Qed.

Lemma time_sleep_frame s w r w' :
  time_sleep env s w = (r, w') ->
  pump_frame w w' /\ uploads (trace w') = uploads (trace w)
  /\ pins w' = pins w.
Proof.
  unfold time_sleep, pump_frame. intros H. run_all H; auto 6.
Qed.

Lemma get_soil_humidity_frame w r w' :
  get_soil_humidity env w = (r, w') ->
  pump_frame w w' /\ uploads (trace w') = uploads (trace w).
Proof.
  unfold get_soil_humidity, pump_frame, bind, pin_value, time_sleep,
    read_u16, ret.
  intros H. run_all H; auto 6.
Qed.

(** What [get_soil_humidity] returns, read off the oracle. *)
Lemma get_soil_humidity_result w r w' :
  get_soil_humidity env w = (r, w') ->
  match sleep_fault env (sleep_calls w) with
  | Some e => r = Raise e
  | None =>
      match adc_read_u16 env (adc_calls w) with
      | Ok raw => r = Ok raw
      | Raise e => r = Raise e
      end
  end.
Proof.
  unfold get_soil_humidity, bind, pin_value, time_sleep, read_u16, ret.
  intros H. cbn in H.
  destruct (sleep_fault env (sleep_calls w)); cbn in H.
  - inversion H; reflexivity.
  - destruct (adc_read_u16 env (adc_calls w)); cbn in H;
      inversion H; reflexivity.
Qed.

Lemma get_temperature_frame w r w' :
  get_temperature env w = (r, w') ->
  pump_frame w w' /\ uploads (trace w') = uploads (trace w).
Proof.
  unfold get_temperature, pump_frame, bind, pin_value, time_sleep,
    measure, temperature, humidity, ret.
  intros H. run_all H; auto 6.
Qed.

Lemma requests_get_spec key rd w r w' :
  requests_get env key rd w = (r, w') ->
  pump_frame w w'
  /\ (r = Ok tt -> uploads (trace w') = S (uploads (trace w)))
  /\ (forall e, r = Raise e -> uploads (trace w') = uploads (trace w)).
Proof.
  unfold requests_get, pump_frame. intros H.
  run_all H; repeat split; auto; discriminate.
Qed.

Lemma channel_update_frame msg w r w' :
  channel_update env msg w = (r, w') ->
  pump_frame w w' /\ uploads (trace w') = uploads (trace w)
  /\ pins w' = pins w.
Proof.
  unfold channel_update, pump_frame, bind, time_time, requests_post.
  intros H. run_all H; auto 6.
Qed.

(** An upload cycle leaves the pump alone; it adds one upload to the
    log when it returns, none when it raises. *)
Lemma upload_values_spec w r w' :
  upload_values env w = (r, w') ->
  pump_frame w w'
  /\ (r = Ok tt -> uploads (trace w') = S (uploads (trace w)))
  /\ (forall e, r = Raise e -> uploads (trace w') = uploads (trace w)).
Proof.
  unfold upload_values. intros H.
  split_bind H.
  2:{ apply get_soil_humidity_frame in Hcall. destruct Hcall as [F U].
      subst r. split; [exact F |].
      split; [discriminate | intros; exact U]. }
  apply get_soil_humidity_frame in Hcall. destruct Hcall as [F1 U1].
  split_bind H.
  2:{ apply time_sleep_frame in Hcall. destruct Hcall as (F2 & U2 & _).
      subst r. split; [eapply pump_frame_trans; eauto |].
      split; [discriminate | intros; congruence]. }
  apply time_sleep_frame in Hcall. destruct Hcall as (F2 & U2 & _).
  split_bind H.
  2:{ apply get_temperature_frame in Hcall. destruct Hcall as [F3 U3].
      subst r. split; [eauto using pump_frame_trans |].
      split; [discriminate | intros; congruence]. }
  apply get_temperature_frame in Hcall. destruct Hcall as [F3 U3].
  split_bind H.
  2:{ apply time_sleep_frame in Hcall. destruct Hcall as (F4 & U4 & _).
      subst r. split; [eauto using pump_frame_trans |].
      split; [discriminate | intros; congruence]. }
  apply time_sleep_frame in Hcall. destruct Hcall as (F4 & U4 & _).
  apply requests_get_spec in H. destruct H as (F5 & Uok & Uerr).
  split; [eauto using pump_frame_trans |].
  split; [intros E; rewrite (Uok E); congruence
         | intros e E; rewrite (Uerr e E); congruence].
Qed.

End Frames.

(** ** The two branches of an iteration *)

Section Branches.

Variable env : Env.

Lemma upload_branch_idle now st w :
  now - last_upload st < 3600 ->
  upload_branch env now st w = (Ok st, w).
Proof.
  intros H. unfold upload_branch.
  destruct (Z.geb_spec (now - last_upload st) 3600) as [Hge | _];
    [lia | reflexivity].
Qed.

Lemma upload_branch_due now st w r w' :
  3600 <= now - last_upload st ->
  upload_branch env now st w = (r, w') ->
  pump_frame w w'
  /\ (forall e, r = Raise e -> uploads (trace w') = uploads (trace w))
  /\ (forall st', r = Ok st' ->
        uploads (trace w') = S (uploads (trace w))
        /\ st' = mkLocals now ((hour st + 1) mod 24) (plant_watered st)).
Proof.
  intros Hdue. unfold upload_branch.
  destruct (Z.geb_spec (now - last_upload st) 3600) as [_ | Hlt]; [| lia].
  intros H. split_bind H.
  - apply upload_values_spec in Hcall. destruct Hcall as (F & Uok & _).
    apply ret_inv in H. destruct H as [-> ->].
    split; [exact F |]. split; [discriminate |].
    intros st' E. inversion E; subst. split; [| reflexivity].
    apply Uok. destruct a; reflexivity.
  - apply upload_values_spec in Hcall. destruct Hcall as (F & _ & Uerr).
    subst r. split; [exact F |]. split; [| discriminate].
    intros e' _. apply (Uerr e). reflexivity.
Qed.

(** Whatever the interval, the upload branch leaves the pump and the
    watered flag alone. *)
Lemma upload_branch_frame now st w r w' :
  upload_branch env now st w = (r, w') ->
  pump_frame w w'
  /\ forall st', r = Ok st' -> plant_watered st' = plant_watered st.
Proof.
  intros H.
  destruct (Z.lt_ge_cases (now - last_upload st) 3600) as [Hlt | Hge].
  - rewrite (upload_branch_idle now st w Hlt) in H. inversion H; subst.
    split; [apply pump_frame_refl |]. intros st' E. inversion E; reflexivity.
  - apply (upload_branch_due now st w r w' Hge) in H.
    destruct H as (F & _ & Hok). split; [exact F |].
    intros st' E. destruct (Hok st' E) as [_ ->]. reflexivity.
Qed.

(** Everything the watering branch can do.  Either it leaves the pump
    alone, or it sets it going once; in the second case it stops it
    again, unless the sleep of 60 seconds raises. *)
Lemma watering_branch_spec st w r w' :
  watering_branch env st w = (r, w') ->
  uploads (trace w') = uploads (trace w)
  /\ (forall st', r = Ok st' ->
        last_upload st' = last_upload st /\ hour st' = hour st)
  /\ ((pump_frame w w'
       /\ forall st', r = Ok st' ->
            plant_watered st' = in_window (hour st) && plant_watered st)
      \/ (in_window (hour st) = true /\ plant_watered st = false
          /\ actuations (trace w') = S (actuations (trace w))
          /\ ((pump_stopped w'
               /\ forall st', r = Ok st' -> plant_watered st' = true)
              \/ run_interrupted r w'))).
Proof.
  unfold watering_branch. intros H.
  destruct (in_window (hour st)) eqn:Hin.
  2:{ apply ret_inv in H. destruct H as [-> ->].
      split; [reflexivity |].
      split; [intros st' E; inversion E; auto |].
      left. split; [apply pump_frame_refl |].
      intros st' E. inversion E. reflexivity. }
  destruct (plant_watered st) eqn:Hfl; cbn [negb] in H.
  { apply ret_inv in H. destruct H as [-> ->].
    split; [reflexivity |].
    split; [intros st' E; inversion E; auto |].
    left. split; [apply pump_frame_refl |].
    intros st' E. inversion E; subst st'. exact Hfl. }
  split_bind H.
  2:{ destruct (get_soil_humidity_frame env _ _ _ Hcall) as [F U].
      subst r. split; [exact U |]. split; [discriminate |].
      left. split; [exact F | discriminate]. }
  destruct (get_soil_humidity_frame env _ _ _ Hcall) as [F U].
  destruct (a >? 16000).
  2:{ apply ret_inv in H. destruct H as [-> ->].
      split; [exact U |].
      split; [intros st' E; inversion E; auto |].
      left. split; [exact F |].
      intros st' E. inversion E; subst st'. exact Hfl. }
  rewrite <- U. destruct F as (_ & _ & _ & <-). clear Hcall U a.
  revert H.
  unfold motor_forward, motor_stop, channel_update, bind, pin_value,
    duty_u16, time_sleep, time_time, requests_post, ret, pump_stopped,
    run_interrupted, actuations, uploads.
  cbn.
  destruct (sleep_fault env (sleep_calls w0)) as [e |]; cbn.
  - (* the run is interrupted *)
    intros H. inversion H; subst; clear H. cbn.
    split; [reflexivity |]. split; [discriminate |].
    right. do 3 (split; [reflexivity |]).
    right. exists e. auto 6.
  - destruct (http_fault env (http_calls w0)) as [e |]; cbn;
      intros H; inversion H; subst; clear H; cbn;
      (split; [reflexivity |]);
      (split; [intros st' E; inversion E; auto |]);
      right; do 3 (split; [reflexivity |]);
      left; (split; [auto |]); intros st' E; inversion E; reflexivity.
Qed.

End Branches.

(** ** One iteration *)

Section Iteration.

Variable env : Env.

Lemma tick_inv st w r w' :
  tick env st w = (r, w') -> tick_path env st w r w'.
Proof.
  unfold tick. intros H.
  split_bind H; [| discriminate Hcall].
  unfold time_time in Hcall. inversion Hcall; subst; clear Hcall.
  split_bind H; [| eapply path_upload_raised; eassumption].
  split_bind H; [| eapply path_watering_raised; eassumption].
  split_bind H; [| eapply path_sleep_raised; eassumption].
  apply ret_inv in H. destruct H as [-> ->]. destruct a1.
  eapply path_done; eauto.
Qed.

(** The pump across an iteration: untouched, or set going once and then
    either stopped or left on by an interrupted run. *)
Lemma tick_pump st w r w' :
  tick env st w = (r, w') ->
  pump_frame w w'
  \/ (plant_watered st = false
      /\ actuations (trace w') = S (actuations (trace w))
      /\ ((pump_stopped w'
           /\ forall st', r = Ok st' ->
                in_window (hour st') = true /\ plant_watered st' = true)
          \/ run_interrupted r w')).
Proof.
  intros H. apply tick_inv in H.
  destruct H as [e Hu -> | st1 w1 e Hu Hw -> | st1 w1 st2 w2 e Hu Hw Hs ->
                | st1 w1 st2 w2 Hu Hw Hs ->].
  - left. apply (upload_branch_frame env _ _ _ _ _ Hu).
  - destruct (upload_branch_frame env _ _ _ _ _ Hu) as [Fu Pu].
    destruct (watering_branch_spec env _ _ _ _ Hw) as (_ & _ & [[Fw _] | Act]).
    + left. eapply pump_frame_trans; eauto.
    + right. destruct Act as (_ & Pw & Aw & Hend).
      rewrite (Pu st1 eq_refl) in Pw. split; [exact Pw |].
      split; [destruct Fu as (_ & _ & _ & Au); congruence |].
      destruct Hend as [[Hst _] | Hint]; [left | right; exact Hint].
      split; [exact Hst | discriminate].
  - destruct (upload_branch_frame env _ _ _ _ _ Hu) as [Fu Pu].
    destruct (time_sleep_frame env _ _ _ _ Hs) as (Fs & _ & _).
    destruct (watering_branch_spec env _ _ _ _ Hw) as (_ & _ & [[Fw _] | Act]).
    + left. eauto using pump_frame_trans.
    + right. destruct Act as (_ & Pw & Aw & Hend).
      rewrite (Pu st1 eq_refl) in Pw. split; [exact Pw |].
      split; [destruct Fu as (_ & _ & _ & Au);
              destruct Fs as (_ & _ & _ & As'); congruence |].
      destruct Hend as [[Hst _] | (e' & He' & _)]; [| discriminate He'].
      left. split; [eapply pump_frame_stopped; eauto | discriminate].
  - destruct (upload_branch_frame env _ _ _ _ _ Hu) as [Fu Pu].
    destruct (time_sleep_frame env _ _ _ _ Hs) as (Fs & _ & _).
    destruct (watering_branch_spec env _ _ _ _ Hw)
      as (_ & Hsame & [[Fw _] | Act]).
    + left. eauto using pump_frame_trans.
    + right. destruct Act as (Win & Pw & Aw & Hend).
      rewrite (Pu st1 eq_refl) in Pw. split; [exact Pw |].
      split; [destruct Fu as (_ & _ & _ & Au);
              destruct Fs as (_ & _ & _ & As'); congruence |].
      destruct Hend as [[Hst Hfl] | (e' & He' & _)]; [| discriminate He'].
      left. split; [eapply pump_frame_stopped; eauto |].
      intros st' E. inversion E; subst st'.
      destruct (Hsame st2 eq_refl) as [_ Hh]. rewrite Hh.
      split; [exact Win | apply Hfl; reflexivity].
Qed.

(** The watered flag at the end of an iteration that ran to its end. *)
Lemma tick_flag st w st' w' :
  tick env st w = (Ok st', w') ->
  in_window (hour st') = false /\ plant_watered st' = false
  \/ in_window (hour st') = true
     /\ (plant_watered st = true -> plant_watered st' = true).
Proof.
  intros H. apply tick_inv in H.
  destruct H as [e _ E | st1 w1 e _ _ E | st1 w1 st2 w2 e _ _ _ E
                | st1 w1 st2 w2 Hu Hw Hs E]; try discriminate E.
  inversion E; subst st2; clear E.
  destruct (upload_branch_frame env _ _ _ _ _ Hu) as [_ Pu].
  specialize (Pu st1 eq_refl).
  destruct (watering_branch_spec env _ _ _ _ Hw)
    as (_ & Hsame & [[_ Hfl] | (Win & _ & _ & Hend)]).
  - destruct (Hsame st' eq_refl) as [_ Hh]. specialize (Hfl st' eq_refl).
    rewrite Hh. destruct (in_window (hour st1)); cbn in Hfl.
    + right. split; [reflexivity | congruence].
    + left. split; [reflexivity | exact Hfl].
  - destruct (Hsame st' eq_refl) as [_ Hh]. rewrite Hh. right.
    split; [exact Win |].
    destruct Hend as [[_ Hfl] | (e & He & _)]; [| discriminate He].
    intros _. apply Hfl. reflexivity.
Qed.

End Iteration.

(** ** The loop *)

Section Loop.

Variable env : Env.

Lemma main_loop_step n st w :
  main_loop env (S n) st w =
  match tick env st w with
  | (Ok st1, w1) => main_loop env n st1 w1
  | (Raise e, w1) => (Raise e, w1)
  end.
Proof. reflexivity. Qed.

(** Starting with the pump at rest, the loop keeps it at rest from one
    iteration to the next; the one way out is an interrupted run. *)
Lemma main_loop_pump n : forall st w r w',
  pump_stopped w ->
  main_loop env n st w = (r, w') ->
  pump_stopped w' \/ run_interrupted r w'.
Proof.
  induction n as [| n IH]; intros st w r w' Hst H.
  - inversion H; subst. left. exact Hst.
  - rewrite main_loop_step in H.
    destruct (tick env st w) as [[st1 | e] w1] eqn:Ht.
    + apply (IH st1 w1 r w'); [| exact H].
      destruct (tick_pump env _ _ _ _ Ht)
        as [F | (_ & _ & [[Hs _] | (e & He & _)])].
      * eapply pump_frame_stopped; eauto.
      * exact Hs.
      * discriminate He.
    + inversion H; subst.
      destruct (tick_pump env _ _ _ _ Ht) as [F | (_ & _ & [[Hs _] | Hi])].
      * left. eapply pump_frame_stopped; eauto.
      * left. exact Hs.
      * right. exact Hi.
Qed.

(** While the flag is set and the hour stays in the window, the pump is
    not set going. *)
Lemma watered_window_run_idle n : forall st w r w',
  plant_watered st = true ->
  window_run env n st w = true ->
  main_loop env n st w = (r, w') ->
  actuations (trace w') = actuations (trace w).
Proof.
  induction n as [| n IH]; intros st w r w' Hfl Hrun H.
  - inversion H; reflexivity.
  - rewrite main_loop_step in H. cbn [window_run] in Hrun.
    destruct (tick env st w) as [[st1 | e] w1] eqn:Ht.
    + apply andb_true_iff in Hrun. destruct Hrun as [Hin Hrun].
      destruct (tick_pump env _ _ _ _ Ht) as [F | (Hf & _)];
        [| congruence].
      destruct (tick_flag env _ _ _ _ Ht) as [[Hout _] | [_ Hkeep]];
        [congruence |].
      rewrite (IH st1 w1 r w' (Hkeep Hfl) Hrun H). apply F.
    + inversion H; subst.
      destruct (tick_pump env _ _ _ _ Ht) as [F | (Hf & _)];
        [apply F | congruence].
Qed.

End Loop.

(** *** C1 *)

(** C1 (as amended).  In every iteration in which the watering branch
    sets the pump going, the iteration ends with the pump stopped (duty
    0, IN1 and IN2 at 0) on every way out, a failing status post
    included, except one: if the sleep of 60 seconds raises, the
    exception leaves the iteration with duty 32768 and IN1 at 1. *)
Theorem pump_stopped_unless_run_interrupted env st w r w' :
  tick env st w = (r, w') ->
  actuations (trace w') <> actuations (trace w) ->
  pump_stopped w' \/ run_interrupted r w'.
Proof.
  intros H Hact.
  destruct (tick_pump env _ _ _ _ H) as [F | (_ & _ & [[Hs _] | Hi])].
  - exfalso. apply Hact. apply F.
  - left. exact Hs.
  - right. exact Hi.
Qed.

Lemma pump_stopped_unless_run_interrupted_witness :
  actuations (trace (snd dry_tick)) <> actuations (trace (world0 100))
  /\ (pump_stopped (snd dry_tick)
      \/ run_interrupted (fst dry_tick) (snd dry_tick)).
Proof.
  assert (Hact : actuations (trace (snd dry_tick))
                 <> actuations (trace (world0 100))).
  { vm_compute. discriminate. }
  split; [exact Hact |].
  apply (pump_stopped_unless_run_interrupted (calm 20000)
           (mkLocals 0 8 false) (world0 100) (fst dry_tick) (snd dry_tick));
    [unfold dry_tick; apply surjective_pairing | exact Hact].
Defined.

(** C1, as stated, fails: the soil is dry at hour 8, the pump is set
    going, the second sleep of the iteration (the 60 seconds) is
    interrupted; the exception leaves [main] and the pump is on. *)
Lemma pump_left_running_on_interrupt :
  fst interrupted_run = Raise KeyboardInterrupt
  /\ ena_duty (snd interrupted_run) = 32768
  /\ pins (snd interrupted_run) IN1 = 1
  /\ ~ pump_stopped (snd interrupted_run).
Proof.
  split; [vm_compute; reflexivity |].
  split; [vm_compute; reflexivity |].
  split; [vm_compute; reflexivity |].
  intros (Hduty & _). vm_compute in Hduty. discriminate Hduty.
Qed.

(** *** C2 *)

(** C2.  Over any run of consecutive iterations in which the hour stays
    in (8, 20), the pump is set going at most once, however long the
    run. *)
Theorem at_most_one_actuation_per_window_run env n : forall st w r w',
  window_run env n st w = true ->
  main_loop env n st w = (r, w') ->
  (actuations (trace w') <= S (actuations (trace w)))%nat.
Proof.
  induction n as [| n IH]; intros st w r w' Hrun H.
  - inversion H; subst. lia.
  - rewrite main_loop_step in H. cbn [window_run] in Hrun.
    destruct (tick env st w) as [[st1 | e] w1] eqn:Ht.
    + apply andb_true_iff in Hrun. destruct Hrun as [Hin Hrun].
      destruct (tick_pump env _ _ _ _ Ht)
        as [F | (_ & Hone & [[_ Hfl] | (e & He & _)])].
      * specialize (IH st1 w1 r w' Hrun H).
        destruct F as (_ & _ & _ & Fa). lia.
      * destruct (Hfl st1 eq_refl) as [_ Hset].
        rewrite (watered_window_run_idle env n st1 w1 r w' Hset Hrun H).
        lia.
      * discriminate He.
    + inversion H; subst.
      destruct (tick_pump env _ _ _ _ Ht) as [F | (_ & Hone & _)].
      * destruct F as (_ & _ & _ & Fa). lia.
      * lia.
Qed.

Lemma at_most_one_actuation_per_window_run_witness :
  window_run (calm 20000) 6 (mkLocals 0 8 false) (world0 100) = true
  /\ (actuations (trace (snd six_dry_ticks))
      <= S (actuations (trace (world0 100))))%nat.
Proof.
  split; [vm_compute; reflexivity |].
  apply (at_most_one_actuation_per_window_run (calm 20000) 6
           (mkLocals 0 8 false) (world0 100)
           (fst six_dry_ticks) (snd six_dry_ticks));
    [vm_compute; reflexivity
    | unfold six_dry_ticks; apply surjective_pairing].
Defined.

(** *** C3 *)

(** C3 fails on the code.  Thirty minutes after a start at 07:30 the
    clock of [get_current_time] shows 08:00, inside the watering window,
    while the loop still holds [hour = 7]: the next iteration does not
    upload, so it tests 7 and does not enter the window. *)
Theorem hour_counter_lags_clock :
  fst half_hour_later = Ok (mkLocals 1751347800 7 false)
  /\ fst (get_current_time 2 (snd half_hour_later))
     = Ok (mkTime 2025 7 1 8 0 0)
  /\ fst (upload_branch (calm 0) (clock (snd half_hour_later))
            (mkLocals 1751347800 7 false) (snd half_hour_later))
     = Ok (mkLocals 1751347800 7 false)
  /\ in_window 8 = true /\ in_window 7 = false.
Proof.
  split; [vm_compute; reflexivity |].
  split; [vm_compute; reflexivity |].
  split; [vm_compute; reflexivity |].
  split; reflexivity.
Qed.

(** *** C4 *)

Section Uploads.

Variable env : Env.

(** The uploads of an iteration are those of its upload branch. *)
Lemma tick_uploads st w r w' :
  tick env st w = (r, w') ->
  exists r1 w1,
    upload_branch env (clock w) st w = (r1, w1)
    /\ uploads (trace w') = uploads (trace w1)
    /\ match r1 with
       | Raise e => r = Raise e
       | Ok st1 =>
           forall st', r = Ok st' ->
             last_upload st' = last_upload st1 /\ hour st' = hour st1
       end.
Proof.
  intros H. apply tick_inv in H.
  destruct H as [e Hu -> | st1 w1 e Hu Hw -> | st1 w1 st2 w2 e Hu Hw Hs ->
                | st1 w1 st2 w2 Hu Hw Hs ->].
  - exists (Raise e), w'. auto.
  - exists (Ok st1), w1. split; [exact Hu |].
    destruct (watering_branch_spec env _ _ _ _ Hw) as (U & _).
    split; [exact U | discriminate].
  - exists (Ok st1), w1. split; [exact Hu |].
    destruct (watering_branch_spec env _ _ _ _ Hw) as (U & _).
    destruct (time_sleep_frame env _ _ _ _ Hs) as (_ & Us & _).
    split; [congruence | discriminate].
  - exists (Ok st1), w1. split; [exact Hu |].
    destruct (watering_branch_spec env _ _ _ _ Hw) as (U & Hsame & _).
    destruct (time_sleep_frame env _ _ _ _ Hs) as (_ & Us & _).
    split; [congruence |].
    intros st' E. inversion E; subst. apply Hsame. reflexivity.
Qed.

End Uploads.

(** C4.  In an iteration that starts at [clock w]: if less than 3600
    seconds have passed since [last_upload], no upload is made and
    [last_upload] keeps its value; if 3600 seconds or more have passed,
    the iteration, when it runs to its end, has made exactly one upload
    and has set [last_upload] to [clock w]. *)
Theorem upload_iff_interval_elapsed env st w r w' :
  tick env st w = (r, w') ->
  (clock w - last_upload st < 3600 ->
     uploads (trace w') = uploads (trace w)
     /\ forall st', r = Ok st' -> last_upload st' = last_upload st)
  /\ (3600 <= clock w - last_upload st ->
     (uploads (trace w') <= S (uploads (trace w)))%nat
     /\ forall st', r = Ok st' ->
          uploads (trace w') = S (uploads (trace w))
          /\ last_upload st' = clock w).
Proof.
  intros H. destruct (tick_uploads env _ _ _ _ H) as (r1 & w1 & Hu & U & Hr).
  split; intros Hint.
  - rewrite (upload_branch_idle env _ _ w Hint) in Hu.
    inversion Hu; subst r1 w1. split; [exact U |].
    intros st' E. apply (Hr st' E).
  - destruct (upload_branch_due env _ _ _ _ _ Hint Hu) as (_ & Uerr & Uok).
    destruct r1 as [st1 | e].
    + destruct (Uok st1 eq_refl) as [U1 ->]. split; [lia |].
      intros st' E. destruct (Hr st' E) as [Hl _]. cbn in Hl.
      split; [congruence | exact Hl].
    + rewrite (Uerr e eq_refl) in U. split; [lia |].
      intros st' E. congruence.
Qed.

Lemma upload_iff_interval_elapsed_witness :
  3600 <= clock (world0 4600) - last_upload (mkLocals 1000 7 false)
  /\ fst due_tick = Ok (mkLocals 4600 8 false)
  /\ uploads (trace (snd due_tick)) = S (uploads (trace (world0 4600)))
  /\ last_upload (mkLocals 4600 8 false) = clock (world0 4600).
Proof.
  assert (Hdue : 3600 <= clock (world0 4600)
                         - last_upload (mkLocals 1000 7 false)).
  { vm_compute. discriminate. }
  assert (Hret : fst due_tick = Ok (mkLocals 4600 8 false)).
  { vm_compute. reflexivity. }
  assert (Hrun : tick (calm 0) (mkLocals 1000 7 false) (world0 4600)
                 = (fst due_tick, snd due_tick)).
  { unfold due_tick. apply surjective_pairing. }
  split; [exact Hdue |]. split; [exact Hret |].
  apply (proj2 (proj2 (upload_iff_interval_elapsed (calm 0)
                         (mkLocals 1000 7 false) (world0 4600)
                         (fst due_tick) (snd due_tick) Hrun) Hdue)).
  exact Hret.
Defined.

(** *** C5 *)

(** C5 (as amended).  When the watering branch, inside the window and
    with the flag unset, reads a soil value of 16000 or less, it leaves
    the pump alone and leaves the locals as they were: the flag stays
    unset, so the next iteration in the same window reads the soil
    again. *)
Theorem wet_reading_leaves_window_armed env st w r w' raw :
  in_window (hour st) = true ->
  plant_watered st = false ->
  sleep_fault env (sleep_calls w) = None ->
  adc_read_u16 env (adc_calls w) = Ok raw ->
  raw <= 16000 ->
  watering_branch env st w = (r, w') ->
  r = Ok st /\ pump_frame w w'
  /\ hd_error (trace w') = Some (EPin HEAT_PIN_SOIL 0).
Proof.
  intros Hin Hfl Hs Hadc Hraw.
  unfold watering_branch, get_soil_humidity, bind, pin_value, time_sleep,
    read_u16, ret, pump_frame.
  rewrite Hin, Hfl. cbn. rewrite Hs. cbn. rewrite Hadc. cbn.
  destruct (Z.gtb_spec raw 16000) as [Hgt | _]; [lia |].
  intros H. inversion H; subst. cbn. auto 6.
Qed.

Lemma wet_reading_leaves_window_armed_witness :
  fst wet_check = Ok (mkLocals 0 8 false)
  /\ pump_frame (world0 100) (snd wet_check)
  /\ hd_error (trace (snd wet_check)) = Some (EPin HEAT_PIN_SOIL 0).
Proof.
  apply (wet_reading_leaves_window_armed (calm 12000) (mkLocals 0 8 false)
           (world0 100) (fst wet_check) (snd wet_check) 12000).
  - reflexivity.
  - reflexivity.
  - reflexivity.
  - reflexivity.
  - vm_compute. discriminate.
  - unfold wet_check; apply surjective_pairing.
Defined.

(** C5, as stated, fails: at hour 8 the first reading is 10000, the
    second, one iteration later and still at hour 8, is 20000, and the
    pump is set going in that second iteration. *)

Lemma pump_runs_later_in_same_window :
  window_run drying_soil 2 (mkLocals 0 8 false) (world0 100) = true
  /\ adc_read_u16 drying_soil 0 = Ok 10000
  /\ actuations
       (trace (snd (tick drying_soil (mkLocals 0 8 false) (world0 100))))
     = 0%nat
  /\ actuations (trace (snd second_look)) = 1%nat
  /\ fst second_look = Ok (mkLocals 0 8 true).
Proof.
  split; [vm_compute; reflexivity |].
  split; [reflexivity |].
  split; [vm_compute; reflexivity |].
  split; vm_compute; reflexivity.
Qed.

(** *** C6 *)

(** C6 (as amended).  When the soil read of the watering branch raises,
    the pump is not touched in that iteration, and the exception is not
    handled: it leaves the iteration and [main], so no further iteration
    runs. *)
Theorem soil_read_failure_leaves_main env n st w st1 w1 e :
  upload_branch env (clock w) st w = (Ok st1, w1) ->
  in_window (hour st1) = true ->
  plant_watered st1 = false ->
  sleep_fault env (sleep_calls w1) = None ->
  adc_read_u16 env (adc_calls w1) = Raise e ->
  exists w',
    tick env st w = (Raise e, w')
    /\ main_loop env (S n) st w = (Raise e, w')
    /\ pump_frame w w'.
Proof.
  intros Hu Hin Hfl Hs Hadc.
  assert (Hw : exists w2,
             watering_branch env st1 w1 = (Raise e, w2) /\ pump_frame w1 w2).
  { unfold watering_branch, get_soil_humidity, bind, pin_value, time_sleep,
      read_u16, pump_frame.
    rewrite Hin, Hfl. cbn. rewrite Hs. cbn. rewrite Hadc. cbn.
    eexists. split; [reflexivity |]. cbn. auto. }
  destruct Hw as (w2 & Hw & Fw).
  assert (Ht : tick env st w = (Raise e, w2)).
  { unfold tick, bind, time_time. rewrite Hu, Hw. reflexivity. }
  exists w2. split; [exact Ht |].
  split; [rewrite main_loop_step, Ht; reflexivity |].
  destruct (upload_branch_frame env _ _ _ _ _ Hu) as [Fu _].
  eapply pump_frame_trans; eauto.
Qed.

Lemma soil_read_failure_leaves_main_witness :
  exists w',
    tick adc_broken (mkLocals 0 8 false) (world0 100) = (Raise (OSError 5), w')
    /\ main_loop adc_broken 5 (mkLocals 0 8 false) (world0 100)
       = (Raise (OSError 5), w')
    /\ pump_frame (world0 100) w'.
Proof.
  apply (soil_read_failure_leaves_main adc_broken 4 (mkLocals 0 8 false)
           (world0 100) (mkLocals 0 8 false) (world0 100) (OSError 5)).
  - reflexivity.
  - reflexivity.
  - reflexivity.
  - reflexivity.
  - reflexivity.
Defined.

(** C6, as stated, fails: the ADC read raises in the first iteration, at
    hour 8.  Of the five iterations asked for, [main] runs none to its
    end: the error comes out of the loop after the one second of the
    heater, before any sleep of 30 seconds. *)
Lemma soil_read_failure_aborts_loop :
  fst broken_adc_run = Raise (OSError 5)
  /\ clock (snd broken_adc_run) = 101
  /\ adc_calls (snd broken_adc_run) = 1%nat
  /\ trace (snd broken_adc_run) = [ESleep 1; EPin HEAT_PIN_SOIL 1].
Proof.
  split; [vm_compute; reflexivity |].
  split; [vm_compute; reflexivity |].
  split; vm_compute; reflexivity.
Qed.

(** *** C7 *)

(** C7 (as amended).  [get_temperature] and [get_soil_humidity] set
    their heater pin to 0 when they return; when the settle sleep or the
    measurement raises, the pin is left at 1. *)
Theorem heater_off_on_return_only env w :
  heater_after HEAT_PIN_TEMP (get_temperature env w)
  /\ heater_after HEAT_PIN_SOIL (get_soil_humidity env w).
Proof.
  unfold heater_after, get_temperature, get_soil_humidity, bind, pin_value,
    time_sleep, measure, read_u16, temperature, humidity, ret.
  cbn. split.
  - destruct (sleep_fault env (sleep_calls w)); cbn; [reflexivity |].
    destruct (dht_measure env (dht_calls w)) as [[t h] | e]; reflexivity.
  - destruct (sleep_fault env (sleep_calls w)); cbn; [reflexivity |].
    destruct (adc_read_u16 env (adc_calls w)); reflexivity.
Qed.

(** C7, as stated, fails: the DHT22 does not answer, [measure] raises
    and [get_temperature] is left with the heater pin at 1. *)
Lemma heater_left_on_when_measure_fails :
  fst (get_temperature dht_silent (world0 100)) = Raise (OSError 110)
  /\ pins (snd (get_temperature dht_silent (world0 100))) HEAT_PIN_TEMP = 1.
Proof. split; vm_compute; reflexivity. Qed.

(** *** C8 *)

(** C8 (as amended).  When the upload branch returns, it has left the
    watered flag and the pump as they were.  If the interval has not
    elapsed it has changed nothing at all; if it has, it has made one
    upload, set [last_upload] to the time of the iteration and moved
    [hour] on by one modulo 24, and that is the hour the watering
    branch of the same iteration tests. *)
Theorem upload_branch_effect env now st w st1 w1 :
  upload_branch env now st w = (Ok st1, w1) ->
  plant_watered st1 = plant_watered st
  /\ pump_frame w w1
  /\ (now - last_upload st < 3600 /\ st1 = st /\ w1 = w
      \/ 3600 <= now - last_upload st
         /\ last_upload st1 = now
         /\ hour st1 = (hour st + 1) mod 24
         /\ uploads (trace w1) = S (uploads (trace w))).
Proof.
  intros H.
  destruct (upload_branch_frame env _ _ _ _ _ H) as [F P].
  split; [apply P; reflexivity |]. split; [exact F |].
  destruct (Z.lt_ge_cases (now - last_upload st) 3600) as [Hlt | Hge].
  - left. rewrite (upload_branch_idle env now st w Hlt) in H.
    inversion H; subst. auto.
  - right. destruct (upload_branch_due env _ _ _ _ _ Hge H) as (_ & _ & Hok).
    destruct (Hok st1 eq_refl) as [U ->]. cbn. auto.
Qed.

Lemma upload_branch_effect_witness :
  plant_watered (mkLocals 4600 8 false)
  = plant_watered (mkLocals 1000 7 false)
  /\ pump_frame (world0 4600)
       (snd (upload_branch (calm 20000) 4600 (mkLocals 1000 7 false)
               (world0 4600)))
  /\ (4600 - last_upload (mkLocals 1000 7 false) < 3600
        /\ mkLocals 4600 8 false = mkLocals 1000 7 false
        /\ snd (upload_branch (calm 20000) 4600 (mkLocals 1000 7 false)
                  (world0 4600)) = world0 4600
      \/ 3600 <= 4600 - last_upload (mkLocals 1000 7 false)
         /\ last_upload (mkLocals 4600 8 false) = 4600
         /\ hour (mkLocals 4600 8 false)
            = (hour (mkLocals 1000 7 false) + 1) mod 24
         /\ uploads
              (trace (snd (upload_branch (calm 20000) 4600
                             (mkLocals 1000 7 false) (world0 4600))))
            = S (uploads (trace (world0 4600)))).
Proof.
  apply (upload_branch_effect (calm 20000) 4600 (mkLocals 1000 7 false)
           (world0 4600) (mkLocals 4600 8 false)).
  reflexivity.
Defined.

(** C8, as stated, fails: two iterations at the same instant, with the
    same hour 7, the same flag and the same dry soil, differ only in
    whether the upload is due.  Where it is, the upload branch moves
    [hour] to 8 and the watering branch runs the pump; where it is not,
    [hour] stays 7 and the pump is not run. *)
Lemma upload_changes_watering_outcome :
  fst upload_then_water = Ok (mkLocals 4600 8 true)
  /\ actuations (trace (snd upload_then_water)) = 1%nat
  /\ fst no_upload_no_water = Ok (mkLocals 1001 7 false)
  /\ actuations (trace (snd no_upload_no_water)) = 0%nat.
Proof.
  split; [vm_compute; reflexivity |].
  split; [vm_compute; reflexivity |].
  split; vm_compute; reflexivity.
Qed.

(** *** C9 *)

(** C9.  An iteration that ends with [hour] outside (8, 20) ends with
    the watered flag unset.  ([hour] at the end of an iteration is the
    hour its watering branch tested.) *)
Theorem flag_clear_outside_window env st w st' w' :
  tick env st w = (Ok st', w') ->
  in_window (hour st') = false ->
  plant_watered st' = false.
Proof.
  intros H Hout.
  destruct (tick_flag env _ _ _ _ H) as [[_ Hfl] | [Hin _]];
    [exact Hfl | congruence].
Qed.

Lemma flag_clear_outside_window_witness :
  fst tick_at_nine = Ok (mkLocals 0 9 false)
  /\ in_window (hour (mkLocals 0 9 false)) = false
  /\ plant_watered (mkLocals 0 9 false) = false.
Proof.
  assert (Hret : fst tick_at_nine = Ok (mkLocals 0 9 false)).
  { vm_compute. reflexivity. }
  split; [exact Hret |]. split; [reflexivity |].
  apply (flag_clear_outside_window (calm 20000) (mkLocals 0 9 true)
           (world0 100) (mkLocals 0 9 false) (snd tick_at_nine)).
  - rewrite <- Hret. unfold tick_at_nine; apply surjective_pairing.
  - reflexivity.
Defined.

(** *** C10 *)

Lemma hour_of_seconds (s : Z) : s mod 86400 / 3600 = (s / 3600) mod 24.
Proof.
  replace 86400 with (3600 * 24) by reflexivity.
  rewrite Z.rem_mul_r by lia.
  rewrite (Z.mul_comm 3600), Z.div_add by lia.
  rewrite Z.div_small by (apply Z.mod_pos_bound; lia).
  reflexivity.
Qed.

Lemma tm_hour_localtime (s : Z) : tm_hour (localtime s) = (s / 3600) mod 24.
Proof.
  unfold localtime. destruct (date_of_days (s / 86400)) as [[y m] d].
  cbn. apply hour_of_seconds.
Qed.

(** Moving the clock by whole hours moves the hour of the day by as
    many, modulo 24. *)
Lemma tm_hour_shift (s k : Z) :
  tm_hour (localtime (s + k * 3600)) = (tm_hour (localtime s) + k) mod 24.
Proof.
  rewrite !tm_hour_localtime, Z.div_add by lia.
  rewrite Z.add_mod_idemp_l by lia. reflexivity.
Qed.

(** C10.  A status message that [channel_update] posts carries the
    timestamp of [time.localtime] at the raw clock; at that same instant
    [get_current_time], from which the hour of the scheduler is seeded
    (with offset 2 in [main]), gives an hour of the day that is the hour
    of the timestamp plus the offset, modulo 24. *)
Theorem status_timestamp_lacks_offset env msg tz w w' :
  channel_update env msg w = (Ok tt, w') ->
  hd_error (trace w')
  = Some (EPost API_KEY
            ("[" ++ format_timestamp (localtime (clock w)) ++ "] - " ++ msg))
  /\ get_current_time tz w = (Ok (localtime (clock w + tz * 3600)), w)
  /\ tm_hour (localtime (clock w + tz * 3600))
     = (tm_hour (localtime (clock w)) + tz) mod 24
  /\ match main_init env w with
     | (Ok st0, _) => hour st0 = (tm_hour (localtime (clock w)) + 2) mod 24
     | (Raise _, _) => False
     end.
Proof.
  unfold channel_update, bind, time_time, requests_post.
  destruct (http_fault env (http_calls w)) eqn:Hh; intros H;
    [discriminate H |].
  inversion H; subst; clear H. cbn.
  split; [reflexivity |].
  split; [reflexivity |].
  split; [apply tm_hour_shift |].
  unfold main_init, get_current_time, channel_update, bind, time_time,
    requests_post, ret.
  rewrite Hh. cbn. apply tm_hour_shift.
Qed.

Lemma status_timestamp_lacks_offset_witness :
  hd_error (trace (snd status_at_boot))
  = Some (EPost API_KEY
            ("[" ++ format_timestamp (localtime (clock boot_0730))
             ++ "] - " ++ "System ON!"))
  /\ get_current_time 2 boot_0730
     = (Ok (localtime (clock boot_0730 + 2 * 3600)), boot_0730)
  /\ tm_hour (localtime (clock boot_0730 + 2 * 3600))
     = (tm_hour (localtime (clock boot_0730)) + 2) mod 24
  /\ match main_init (calm 0) boot_0730 with
     | (Ok st0, _) =>
         hour st0 = (tm_hour (localtime (clock boot_0730)) + 2) mod 24
     | (Raise _, _) => False
     end.
Proof.
  apply (status_timestamp_lacks_offset (calm 0) "System ON!" 2 boot_0730
           (snd status_at_boot)).
  reflexivity.
Defined.

(** The same on numbers: the status shows 05:30 while the scheduler is
    seeded with hour 7. *)
Example status_at_boot_shows_raw_clock :
  hd_error (trace (snd status_at_boot))
  = Some (EPost API_KEY "[2025-07-01 05:30:00] - System ON!")
  /\ fst (main_init (calm 0) boot_0730) = Ok (mkLocals 1751347800 7 false).
Proof. split; vm_compute; reflexivity. Qed.

(** * Further properties of the program *)

(** ** The clock and the heaters across a call *)

Section Clock.

Variable env : Env.

Lemma time_sleep_clock s w r w' :
  time_sleep env s w = (r, w') ->
  match r with
  | Ok _ => clock w' = clock w + s
  | Raise _ => clock w' = clock w
  end.
Proof. unfold time_sleep. intros H. run_all H; reflexivity. Qed.

(** A soil read takes the second of the heater; it changes no pin but
    its own heater, which it leaves off when it returns. *)
Lemma get_soil_humidity_effect w r w' :
  get_soil_humidity env w = (r, w') ->
  clock w <= clock w' <= clock w + 1
  /\ pins w' HEAT_PIN_TEMP = pins w HEAT_PIN_TEMP
  /\ statuses (trace w') = statuses (trace w)
  /\ match r with
     | Ok raw =>
         clock w' = clock w + 1 /\ pins w' HEAT_PIN_SOIL = 0
         /\ adc_read_u16 env (adc_calls w) = Ok raw
         /\ sleep_fault env (sleep_calls w) = None
         /\ sleep_calls w' = S (sleep_calls w)
         /\ http_calls w' = http_calls w
     | Raise _ => pins w' HEAT_PIN_SOIL = 1
     end.
Proof.
  unfold get_soil_humidity, bind, pin_value, time_sleep, read_u16, ret.
  intros H. run_all H; repeat split; auto; lia.
Qed.

Lemma get_temperature_effect w r w' :
  get_temperature env w = (r, w') ->
  clock w <= clock w' <= clock w + 1
  /\ pins w' HEAT_PIN_SOIL = pins w HEAT_PIN_SOIL
  /\ statuses (trace w') = statuses (trace w)
  /\ match r with
     | Ok th =>
         clock w' = clock w + 1 /\ pins w' HEAT_PIN_TEMP = 0
         /\ dht_measure env (dht_calls w) = Ok th
     | Raise _ => pins w' HEAT_PIN_TEMP = 1
     end.
Proof.
  unfold get_temperature, bind, pin_value, time_sleep, measure, temperature,
    humidity, ret.
  intros H. run_all H; repeat split; auto; lia.
Qed.

Lemma channel_update_effect msg w r w' :
  channel_update env msg w = (r, w') ->
  clock w' = clock w /\ pins w' = pins w.
Proof.
  unfold channel_update, bind, time_time, requests_post.
  intros H. run_all H; auto.
Qed.

(** An upload cycle: six seconds when it returns, and then both heaters
    are off and the request carries what the two sensors just gave. *)
Lemma upload_values_effect w r w' :
  upload_values env w = (r, w') ->
  clock w <= clock w' <= clock w + 6
  /\ statuses (trace w') = statuses (trace w)
  /\ match r with
     | Ok _ =>
         clock w' = clock w + 6
         /\ pins w' HEAT_PIN_TEMP = 0 /\ pins w' HEAT_PIN_SOIL = 0
         /\ exists raw th,
              adc_read_u16 env (adc_calls w) = Ok raw
              /\ dht_measure env (dht_calls w) = Ok th
              /\ hd_error (trace w')
                 = Some (EGet API_KEY (mkReadings raw (fst th) (snd th)))
     | Raise _ =>
         pins w' HEAT_PIN_SOIL = 1
         /\ pins w' HEAT_PIN_TEMP = pins w HEAT_PIN_TEMP
         \/ pins w' HEAT_PIN_SOIL = 0
     end.
Proof.
  unfold upload_values, get_soil_humidity, get_temperature, bind, pin_value,
    time_sleep, read_u16, measure, temperature, humidity, requests_get, ret,
    statuses.
  intros H. run_all H;
    (split; [lia |]); (split; [reflexivity |]); auto.
  repeat split; try lia. eexists _, (_, _). cbn. auto.
Qed.

(** The watering branch: at most 61 seconds; each status it posts
    follows a pump run of its own; the DHT heater is not its business. *)
Lemma watering_branch_effect st w r w' :
  watering_branch env st w = (r, w') ->
  clock w <= clock w' <= clock w + 61
  /\ pins w' HEAT_PIN_TEMP = pins w HEAT_PIN_TEMP
  /\ (statuses (trace w') + actuations (trace w)
      <= actuations (trace w') + statuses (trace w))%nat
  /\ match r with
     | Ok _ =>
         (statuses (trace w') + actuations (trace w)
          = actuations (trace w') + statuses (trace w))%nat
         /\ (pins w' HEAT_PIN_SOIL = pins w HEAT_PIN_SOIL
             \/ pins w' HEAT_PIN_SOIL = 0)
     | Raise _ =>
         pins w' HEAT_PIN_SOIL = 1 \/ pins w' HEAT_PIN_SOIL = 0
     end.
Proof.
  unfold watering_branch, get_soil_humidity, motor_forward, motor_stop,
    channel_update, bind, pin_value, duty_u16, time_sleep, time_time,
    read_u16, requests_post, ret, statuses, actuations.
  intros H. run_all H;
    (split; [lia |]); (split; [reflexivity |]); (split; [lia |]);
    auto; (split; [lia | auto]).
Qed.

End Clock.

(** ** An iteration, and the loop, as a whole *)

Section Whole.

Variable env : Env.

Lemma time_sleep_statuses s w r w' :
  time_sleep env s w = (r, w') ->
  statuses (trace w') = statuses (trace w).
Proof. unfold time_sleep, statuses. intros H. run_all H; reflexivity. Qed.

Lemma upload_branch_effect_clock now st w r w' :
  upload_branch env now st w = (r, w') ->
  clock w <= clock w' <= clock w + 6
  /\ statuses (trace w') = statuses (trace w)
  /\ (heaters_off w ->
      match r with
      | Ok _ => heaters_off w'
      | Raise _ => pins w' HEAT_PIN_TEMP = 0 \/ pins w' HEAT_PIN_SOIL = 0
      end).
Proof.
  unfold upload_branch.
  destruct (now - last_upload st >=? 3600); intros H.
  - split_bind H.
    + apply upload_values_effect in Hcall.
      destruct Hcall as (Hc & Hs & Hc6 & Ht & Hsoil & _).
      apply ret_inv in H. destruct H as [-> ->].
      split; [lia |]. split; [exact Hs |]. intros _. split; assumption.
    + apply upload_values_effect in Hcall. destruct Hcall as (Hc & Hs & Hp).
      subst r. split; [exact Hc |]. split; [exact Hs |].
      intros [Ht _]. destruct Hp as [[_ Hsame] | Hoff];
        [left; congruence | right; exact Hoff].
  - apply ret_inv in H. destruct H as [-> ->].
    split; [lia |]. split; [reflexivity |]. intros Hoff. exact Hoff.
Qed.

(** The clock, the heaters and the status posts across an iteration. *)
Lemma tick_effect st w r w' :
  tick env st w = (r, w') ->
  clock w <= clock w' <= clock w + 97
  /\ (statuses (trace w') + actuations (trace w)
      <= actuations (trace w') + statuses (trace w))%nat
  /\ match r with
     | Ok _ =>
         clock w + 30 <= clock w'
         /\ (statuses (trace w') + actuations (trace w)
             = actuations (trace w') + statuses (trace w))%nat
         /\ (heaters_off w -> heaters_off w')
     | Raise _ =>
         heaters_off w ->
         pins w' HEAT_PIN_TEMP = 0 \/ pins w' HEAT_PIN_SOIL = 0
     end.
Proof.
  intros H. apply tick_inv in H.
  destruct H as [e Hu -> | st1 w1 e Hu Hw -> | st1 w1 st2 w2 e Hu Hw Hs ->
                | st1 w1 st2 w2 Hu Hw Hs ->].
  - destruct (upload_branch_effect_clock _ _ _ _ _ Hu) as (Hc & Hst & Hh).
    destruct (upload_branch_frame env _ _ _ _ _ Hu) as [(_ & _ & _ & Ha) _].
    split; [lia |]. split; [lia | exact Hh].
  - destruct (upload_branch_effect_clock _ _ _ _ _ Hu) as (Hc & Hst & Hh).
    destruct (upload_branch_frame env _ _ _ _ _ Hu) as [(_ & _ & _ & Ha) _].
    destruct (watering_branch_effect env _ _ _ _ Hw) as (Hc2 & Ht2 & Hle & _).
    split; [lia |]. split; [lia |].
    intros Hoff. destruct (Hh Hoff) as [Ht1 _]. left. congruence.
  - destruct (upload_branch_effect_clock _ _ _ _ _ Hu) as (Hc & Hst & Hh).
    destruct (upload_branch_frame env _ _ _ _ _ Hu) as [(_ & _ & _ & Ha) _].
    destruct (watering_branch_effect env _ _ _ _ Hw)
      as (Hc2 & Ht2 & Hle & _ & Hsoil).
    pose proof (time_sleep_clock env _ _ _ _ Hs) as Hc3. cbn in Hc3.
    pose proof (time_sleep_statuses _ _ _ _ Hs) as Hst3.
    destruct (time_sleep_frame env _ _ _ _ Hs) as ((_ & _ & _ & Ha3) & _ & Hp3).
    split; [lia |]. split; [lia |].
    intros Hoff. destruct (Hh Hoff) as [Ht1 _]. left.
    rewrite Hp3. congruence.
  - destruct (upload_branch_effect_clock _ _ _ _ _ Hu) as (Hc & Hst & Hh).
    destruct (upload_branch_frame env _ _ _ _ _ Hu) as [(_ & _ & _ & Ha) _].
    destruct (watering_branch_effect env _ _ _ _ Hw)
      as (Hc2 & Ht2 & Hle & Heq & Hsoil).
    pose proof (time_sleep_clock env _ _ _ _ Hs) as Hc3. cbn in Hc3.
    pose proof (time_sleep_statuses _ _ _ _ Hs) as Hst3.
    destruct (time_sleep_frame env _ _ _ _ Hs) as ((_ & _ & _ & Ha3) & _ & Hp3).
    split; [lia |]. split; [lia |].
    split; [lia |]. split; [lia |].
    intros Hoff. destruct (Hh Hoff) as [Ht1 Hs1].
    unfold heaters_off. rewrite Hp3.
    split; [congruence | destruct Hsoil; congruence].
Qed.

(** The hour and the uploads move together: an iteration that runs to
    its end either leaves both, and [last_upload], as they were, or has
    made one upload and moved [hour] on by one. *)
Lemma tick_hour st w st' w' :
  tick env st w = (Ok st', w') ->
  hour st' = hour st /\ last_upload st' = last_upload st
  /\ uploads (trace w') = uploads (trace w)
  \/ hour st' = (hour st + 1) mod 24
     /\ uploads (trace w') = S (uploads (trace w)).
Proof.
  intros H.
  destruct (tick_uploads env _ _ _ _ H) as (r1 & w1 & Hu & U & Hr).
  destruct r1 as [st1 | e]; [| discriminate Hr].
  destruct (Hr st' eq_refl) as [Hl Hh].
  destruct (Z.lt_ge_cases (clock w - last_upload st) 3600) as [Hlt | Hge].
  - rewrite (upload_branch_idle env _ _ w Hlt) in Hu.
    inversion Hu; subst st1 w1. left. auto.
  - destruct (upload_branch_due env _ _ _ _ _ Hge Hu) as (_ & _ & Hok).
    destruct (Hok st1 eq_refl) as [U1 ->]. right.
    split; [exact Hh | congruence].
Qed.

Lemma main_loop_clock n : forall st w r w',
  main_loop env n st w = (r, w') -> clock w <= clock w'.
Proof.
  induction n as [| n IH]; intros st w r w' H.
  - inversion H; subst. lia.
  - rewrite main_loop_step in H.
    destruct (tick env st w) as [[st1 | e] w1] eqn:Ht.
    + destruct (tick_effect _ _ _ _ Ht) as (Hc & _).
      specialize (IH _ _ _ _ H). lia.
    + inversion H; subst.
      destruct (tick_effect _ _ _ _ Ht) as (Hc & _). lia.
Qed.

Lemma main_loop_hour n : forall st w st' w',
  main_loop env n st w = (Ok st', w') ->
  exists k : nat,
    uploads (trace w') = (uploads (trace w) + k)%nat
    /\ (hour st + Z.of_nat k) mod 24 = hour st' mod 24
    /\ (0 <= hour st < 24 -> 0 <= hour st' < 24).
Proof.
  induction n as [| n IH]; intros st w st' w' H.
  - inversion H; subst. exists 0%nat.
    split; [lia |]. split; [f_equal; lia | auto].
  - rewrite main_loop_step in H.
    destruct (tick env st w) as [[st1 | e] w1] eqn:Ht; [| discriminate H].
    destruct (IH _ _ _ _ H) as (k & Hk & Hmod & Hrange).
    destruct (tick_hour _ _ _ _ Ht) as [(Hh & _ & Hu) | (Hh & Hu)].
    + exists k. rewrite Hh in *. split; [lia |]. split; [exact Hmod | exact Hrange].
    + exists (S k). split; [lia |]. split.
      * rewrite <- Hmod, Hh. rewrite Z.add_mod_idemp_l by lia.
        f_equal. lia.
      * intros _. apply Hrange. rewrite Hh. apply Z.mod_pos_bound. lia.
Qed.

Lemma main_init_effect w st w' :
  main_init env w = (Ok st, w') ->
  st = mkLocals (clock w) ((clock w + 2 * 3600) / 3600 mod 24) false
  /\ clock w' = clock w
  /\ pins w' = pins w /\ ena_duty w' = ena_duty w
  /\ uploads (trace w') = uploads (trace w)
  /\ actuations (trace w') = actuations (trace w)
  /\ statuses (trace w') = S (statuses (trace w))
  /\ http_fault env (http_calls w) = None
  /\ http_calls w' = S (http_calls w)
  /\ sleep_calls w' = sleep_calls w /\ adc_calls w' = adc_calls w.
Proof.
  unfold main_init, get_current_time, channel_update, bind, time_time,
    requests_post, ret, uploads, actuations, statuses.
  intros H. run_all H. rewrite hour_of_seconds. auto 12.
Qed.

End Whole.

Section Loop_facts.

Variable env : Env.

(** The watering branch on dry soil when nothing fails, effect by
    effect. *)
Lemma watering_branch_dry st w raw :
  in_window (hour st) = true ->
  plant_watered st = false ->
  sleep_fault env (sleep_calls w) = None ->
  adc_read_u16 env (adc_calls w) = Ok raw ->
  16000 < raw ->
  sleep_fault env (S (sleep_calls w)) = None ->
  http_fault env (http_calls w) = None ->
  exists w',
    watering_branch env st w
    = (Ok (mkLocals (last_upload st) (hour st) true), w')
    /\ clock w' = clock w + 1 + 60
    /\ pump_stopped w'
    /\ sleep_calls w' = S (S (sleep_calls w))
    /\ trace w'
       = rev [EPin HEAT_PIN_SOIL 1; ESleep 1; EAdc raw; EPin HEAT_PIN_SOIL 0;
              EPin IN1 1; EPin IN2 0; EDuty 32768; ESleep 60;
              EDuty 0; EPin IN1 0; EPin IN2 0;
              EPost API_KEY
                ("[" ++ format_timestamp (localtime (clock w + 1 + 60))
                 ++ "] - Plants watered!")]
         ++ trace w.
Proof.
  intros Hin Hfl Hs1 Hadc Hraw Hs60 Hh.
  unfold watering_branch, get_soil_humidity, motor_forward, motor_stop,
    channel_update, bind, pin_value, duty_u16, time_sleep, time_time,
    read_u16, requests_post, ret, pump_stopped.
  rewrite Hin, Hfl. cbn. rewrite Hs1. cbn. rewrite Hadc. cbn.
  destruct (Z.gtb_spec raw 16000) as [_ | Hle]; [| lia].
  cbn. rewrite Hs60. cbn. rewrite Hh. cbn.
  eexists. split; [reflexivity |]. cbn. auto 8.
Qed.

(** No upload while the clock is less than 3600 seconds past
    [last_upload]. *)
Lemma main_loop_no_upload n : forall st w r w',
  main_loop env n st w = (r, w') ->
  clock w' < last_upload st + 3600 ->
  uploads (trace w') = uploads (trace w).
Proof.
  induction n as [| n IH]; intros st w r w' H Hearly.
  - inversion H; reflexivity.
  - rewrite main_loop_step in H.
    destruct (tick env st w) as [[st1 | e] w1] eqn:Ht.
    + pose proof (main_loop_clock env _ _ _ _ _ H) as Hc1.
      destruct (tick_effect env _ _ _ _ Ht) as (Hc & _).
      destruct (tick_uploads env _ _ _ _ Ht) as (r1 & w0 & Hu & U & Hr).
      rewrite (upload_branch_idle env (clock w) st w) in Hu by lia.
      inversion Hu; subst r1 w0.
      destruct (Hr st1 eq_refl) as [Hl _].
      rewrite (IH _ _ _ _ H) by lia. exact U.
    + inversion H; subst.
      destruct (tick_effect env _ _ _ _ Ht) as (Hc & _).
      destruct (tick_uploads env _ _ _ _ Ht) as (r1 & w0 & Hu & U & Hr).
      rewrite (upload_branch_idle env (clock w) st w) in Hu by lia.
      inversion Hu; subst r1 w0. exact U.
Qed.

Lemma main_loop_posts n : forall st w r w',
  main_loop env n st w = (r, w') ->
  (statuses (trace w') + actuations (trace w)
   <= actuations (trace w') + statuses (trace w))%nat
  /\ (forall st', r = Ok st' ->
        (statuses (trace w') + actuations (trace w)
         = actuations (trace w') + statuses (trace w))%nat).
Proof.
  induction n as [| n IH]; intros st w r w' H.
  - inversion H; subst. split; [lia | intros; lia].
  - rewrite main_loop_step in H.
    destruct (tick env st w) as [[st1 | e] w1] eqn:Ht.
    + destruct (tick_effect env _ _ _ _ Ht) as (_ & _ & _ & Heq & _).
      destruct (IH _ _ _ _ H) as [Hle Hok].
      split; [lia |]. intros st' E. specialize (Hok st' E). lia.
    + inversion H; subst.
      destruct (tick_effect env _ _ _ _ Ht) as (_ & Hle & _).
      split; [exact Hle | discriminate].
Qed.

Lemma main_loop_heaters n : forall st w r w',
  heaters_off w ->
  main_loop env n st w = (r, w') ->
  match r with
  | Ok _ => heaters_off w'
  | Raise _ => pins w' HEAT_PIN_TEMP = 0 \/ pins w' HEAT_PIN_SOIL = 0
  end.
Proof.
  induction n as [| n IH]; intros st w r w' Hoff H.
  - inversion H; subst. exact Hoff.
  - rewrite main_loop_step in H.
    destruct (tick env st w) as [[st1 | e] w1] eqn:Ht.
    + destruct (tick_effect env _ _ _ _ Ht) as (_ & _ & _ & _ & Hh).
      apply (IH _ _ _ _ (Hh Hoff) H).
    + inversion H; subst.
      destruct (tick_effect env _ _ _ _ Ht) as (_ & _ & Hh).
      apply Hh. exact Hoff.
Qed.

End Loop_facts.

(** ** The watering cycle *)

(** X1.  In the window, with the flag unset, on a soil reading above
    16000 and with nothing failing, the watering branch does this and
    nothing else: one second of soil heater and the reading; the pump
    forward at duty 32768; a sleep of 60 seconds; duty 0 and both
    direction pins low; the status "Plants watered!" stamped with the
    time after the run; and it returns with the flag set. *)
Theorem dry_reading_runs_pump_sixty_seconds env st w raw :
  in_window (hour st) = true ->
  plant_watered st = false ->
  sleep_fault env (sleep_calls w) = None ->
  adc_read_u16 env (adc_calls w) = Ok raw ->
  16000 < raw ->
  sleep_fault env (S (sleep_calls w)) = None ->
  http_fault env (http_calls w) = None ->
  exists w',
    watering_branch env st w
    = (Ok (mkLocals (last_upload st) (hour st) true), w')
    /\ clock w' = clock w + 1 + 60
    /\ pump_stopped w'
    /\ sleep_calls w' = S (S (sleep_calls w))
    /\ trace w'
       = rev [EPin HEAT_PIN_SOIL 1; ESleep 1; EAdc raw; EPin HEAT_PIN_SOIL 0;
              EPin IN1 1; EPin IN2 0; EDuty 32768; ESleep 60;
              EDuty 0; EPin IN1 0; EPin IN2 0;
              EPost API_KEY
                ("[" ++ format_timestamp (localtime (clock w + 1 + 60))
                 ++ "] - Plants watered!")]
         ++ trace w.
Proof. exact (watering_branch_dry env st w raw). Qed.

Lemma dry_reading_runs_pump_sixty_seconds_witness :
  exists w',
    watering_branch (calm 20000) (mkLocals 0 8 false) (world0 100)
    = (Ok (mkLocals 0 8 true), w')
    /\ clock w' = 100 + 1 + 60
    /\ pump_stopped w'
    /\ sleep_calls w' = 2%nat
    /\ trace w'
       = rev [EPin HEAT_PIN_SOIL 1; ESleep 1; EAdc 20000;
              EPin HEAT_PIN_SOIL 0;
              EPin IN1 1; EPin IN2 0; EDuty 32768; ESleep 60;
              EDuty 0; EPin IN1 0; EPin IN2 0;
              EPost API_KEY
                ("[" ++ format_timestamp (localtime (100 + 1 + 60))
                 ++ "] - Plants watered!")]
         ++ [].
Proof.
  apply (dry_reading_runs_pump_sixty_seconds (calm 20000)
           (mkLocals 0 8 false) (world0 100) 20000).
  - reflexivity.
  - reflexivity.
  - reflexivity.
  - reflexivity.
  - lia.
  - reflexivity.
  - reflexivity.
Defined.

(** X10.  The watering branch sets the pump going only inside the
    window, with the flag unset, and on a soil reading above 16000. *)
Theorem actuation_needs_dry_reading env st w r w' :
  watering_branch env st w = (r, w') ->
  actuations (trace w') <> actuations (trace w) ->
  in_window (hour st) = true /\ plant_watered st = false
  /\ exists raw, adc_read_u16 env (adc_calls w) = Ok raw /\ 16000 < raw.
Proof.
  unfold watering_branch. intros H Hact.
  destruct (in_window (hour st)) eqn:Hin.
  2:{ apply ret_inv in H. destruct H as [_ ->]. contradiction. }
  destruct (plant_watered st) eqn:Hfl; cbn [negb] in H.
  { apply ret_inv in H. destruct H as [_ ->]. contradiction. }
  split; [reflexivity |]. split; [reflexivity |].
  split_bind H.
  2:{ destruct (get_soil_humidity_frame env _ _ _ Hcall) as [F _].
      exfalso. apply Hact. apply F. }
  destruct (get_soil_humidity_frame env _ _ _ Hcall) as [F _].
  destruct (get_soil_humidity_effect env _ _ _ Hcall)
    as (_ & _ & _ & _ & _ & Hadc & _).
  destruct (Z.gtb_spec a 16000) as [Hgt | Hle].
  - exists a. split; [exact Hadc | lia].
  - apply ret_inv in H. destruct H as [_ ->].
    exfalso. apply Hact. apply F.
Qed.

Lemma actuation_needs_dry_reading_witness :
  in_window (hour (mkLocals 0 8 false)) = true
  /\ plant_watered (mkLocals 0 8 false) = false
  /\ exists raw,
       adc_read_u16 (calm 20000) (adc_calls (world0 100)) = Ok raw
       /\ 16000 < raw.
Proof.
  apply (actuation_needs_dry_reading (calm 20000) (mkLocals 0 8 false)
           (world0 100) (fst dry_check) (snd dry_check)).
  - unfold dry_check. apply surjective_pairing.
  - vm_compute. discriminate.
Defined.

(** ** The hour counter *)

(** X2.  While the loop runs, [hour] is the hour it started from plus
    the number of uploads made since, modulo 24. *)
Theorem hour_is_start_hour_plus_uploads env n st w st' w' :
  0 <= hour st < 24 ->
  main_loop env n st w = (Ok st', w') ->
  exists k : nat,
    uploads (trace w') = (uploads (trace w) + k)%nat
    /\ hour st' = (hour st + Z.of_nat k) mod 24.
Proof.
  intros Hrange H.
  destruct (main_loop_hour env n _ _ _ _ H) as (k & Hk & Hmod & Hr).
  exists k. split; [exact Hk |].
  rewrite Hmod. symmetry. apply Z.mod_small. apply Hr. exact Hrange.
Qed.

(** Closes [f x = (v, snd X)] where [X] is the name of the run [f x]. *)
Ltac by_run X :=
  transitivity (fst X, snd X);
  [ unfold X; apply surjective_pairing
  | apply (f_equal (fun r => (r, snd X))); vm_compute; reflexivity ].

Lemma hour_is_start_hour_plus_uploads_witness :
  exists k : nat,
    uploads (trace (snd midnight_run))
    = (uploads (trace (world0 0)) + k)%nat
    /\ hour (mkLocals 3600 0 false)
       = (hour (mkLocals 0 23 false) + Z.of_nat k) mod 24.
Proof.
  apply (hour_is_start_hour_plus_uploads (calm 0) 125 (mkLocals 0 23 false)
           (world0 0) (mkLocals 3600 0 false) (snd midnight_run)).
  - cbn. lia.
  - by_run midnight_run.
Defined.

(** X3.  Whenever [main] is running, [hour] is one of 0 to 23. *)
Theorem hour_on_the_dial env n w st w' :
  main env n w = (Ok st, w') -> 0 <= hour st < 24.
Proof.
  unfold main. intros H. split_bind H; [| discriminate H].
  destruct (main_init_effect env _ _ _ Hcall) as (-> & _).
  destruct (main_loop_hour env n _ _ _ _ H) as (_ & _ & _ & Hr).
  apply Hr. cbn. apply Z.mod_pos_bound. lia.
Qed.

Lemma hour_on_the_dial_witness :
  0 <= hour (mkLocals 1751351400 8 false) < 24.
Proof.
  apply (hour_on_the_dial (calm 0) 125 boot_0730
           (mkLocals 1751351400 8 false) (snd morning_run)).
  by_run morning_run.
Defined.

(** ** Time *)

(** X4.  The clock never goes back across an iteration, and an
    iteration takes at most 97 seconds (6 of upload, 61 of watering, 30
    of sleep); one that runs to its end takes at least the 30 seconds of
    its sleep. *)
Theorem tick_takes_30_to_97_seconds env st w r w' :
  tick env st w = (r, w') ->
  clock w <= clock w' <= clock w + 97
  /\ forall st', r = Ok st' -> clock w + 30 <= clock w'.
Proof.
  intros H. destruct (tick_effect env _ _ _ _ H) as (Hc & _ & Hr).
  split; [exact Hc |]. intros st' ->. apply Hr.
Qed.

Lemma tick_takes_30_to_97_seconds_witness :
  clock (world0 100) <= clock (snd dry_tick) <= clock (world0 100) + 97
  /\ forall st', fst dry_tick = Ok st' ->
       clock (world0 100) + 30 <= clock (snd dry_tick).
Proof.
  apply (tick_takes_30_to_97_seconds (calm 20000) (mkLocals 0 8 false)
           (world0 100) (fst dry_tick) (snd dry_tick)).
  unfold dry_tick. apply surjective_pairing.
Defined.

(** X5.  From any point of the loop, no upload is made while the clock
    is less than 3600 seconds past [last_upload]: two uploads are never
    closer than an hour. *)
Theorem no_upload_before_interval env n st w r w' :
  main_loop env n st w = (r, w') ->
  clock w' < last_upload st + 3600 ->
  uploads (trace w') = uploads (trace w).
Proof. apply main_loop_no_upload. Qed.

Lemma no_upload_before_interval_witness :
  clock (snd six_dry_ticks) < last_upload (mkLocals 0 8 false) + 3600
  /\ uploads (trace (snd six_dry_ticks)) = uploads (trace (world0 100)).
Proof.
  assert (Hearly : clock (snd six_dry_ticks)
                   < last_upload (mkLocals 0 8 false) + 3600).
  { vm_compute. reflexivity. }
  split; [exact Hearly |].
  apply (no_upload_before_interval (calm 20000) 6 (mkLocals 0 8 false)
           (world0 100) (fst six_dry_ticks) (snd six_dry_ticks));
    [unfold six_dry_ticks; apply surjective_pairing | exact Hearly].
Defined.

(** X6.  [main] makes no upload during the first 3600 seconds after it
    has started: the first telemetry leaves one hour after the start. *)
Theorem no_upload_in_first_hour env n w r w' :
  main env n w = (r, w') ->
  clock w' < clock w + 3600 ->
  uploads (trace w') = uploads (trace w).
Proof.
  unfold main. intros H Hearly. split_bind H.
  - destruct (main_init_effect env _ _ _ Hcall)
      as (-> & Hc & _ & _ & Hu & _).
    rewrite <- Hu. apply (main_loop_no_upload env n _ _ _ _ H).
    cbn. lia.
  - subst r. revert Hcall.
    unfold main_init, get_current_time, channel_update, bind, time_time,
      requests_post, ret, uploads.
    intros Hcall. run_all Hcall. reflexivity.
Qed.

Lemma no_upload_in_first_hour_witness :
  clock (snd half_hour_later) < clock boot_0730 + 3600
  /\ uploads (trace (snd half_hour_later)) = uploads (trace boot_0730).
Proof.
  assert (Hearly : clock (snd half_hour_later) < clock boot_0730 + 3600).
  { vm_compute. reflexivity. }
  split; [exact Hearly |].
  apply (no_upload_in_first_hour (calm 0) 60 boot_0730
           (fst half_hour_later) (snd half_hour_later));
    [unfold half_hour_later; apply surjective_pairing | exact Hearly].
Defined.

(** ** Heaters, uploads and status posts *)

(** X7.  Started with both heaters off, the loop has both heaters off
    whenever an iteration has run to its end; when an exception leaves
    it, at most one heater is left on. *)
Theorem heaters_off_between_iterations env n st w r w' :
  heaters_off w ->
  main_loop env n st w = (r, w') ->
  match r with
  | Ok _ => heaters_off w'
  | Raise _ => pins w' HEAT_PIN_TEMP = 0 \/ pins w' HEAT_PIN_SOIL = 0
  end.
Proof. apply main_loop_heaters. Qed.

Lemma heaters_off_between_iterations_witness :
  match fst six_dry_ticks with
  | Ok _ => heaters_off (snd six_dry_ticks)
  | Raise _ =>
      pins (snd six_dry_ticks) HEAT_PIN_TEMP = 0
      \/ pins (snd six_dry_ticks) HEAT_PIN_SOIL = 0
  end.
Proof.
  apply (heaters_off_between_iterations (calm 20000) 6 (mkLocals 0 8 false)
           (world0 100) (fst six_dry_ticks) (snd six_dry_ticks)).
  - split; reflexivity.
  - unfold six_dry_ticks. apply surjective_pairing.
Defined.

(** X8.  An upload cycle that returns has taken six seconds and its
    request carries the soil value and the temperature and humidity that
    the sensors gave during this very cycle. *)
Theorem upload_sends_fresh_readings env w w' :
  upload_values env w = (Ok tt, w') ->
  clock w' = clock w + 6
  /\ exists raw th,
       adc_read_u16 env (adc_calls w) = Ok raw
       /\ dht_measure env (dht_calls w) = Ok th
       /\ hd_error (trace w')
          = Some (EGet API_KEY (mkReadings raw (fst th) (snd th))).
Proof.
  intros H. destruct (upload_values_effect env _ _ _ H)
    as (_ & _ & Hc & _ & _ & Hex).
  split; [exact Hc | exact Hex].
Qed.

Lemma upload_sends_fresh_readings_witness :
  clock (snd one_upload) = clock (world0 100) + 6
  /\ exists raw th,
       adc_read_u16 (calm 12000) (adc_calls (world0 100)) = Ok raw
       /\ dht_measure (calm 12000) (dht_calls (world0 100)) = Ok th
       /\ hd_error (trace (snd one_upload))
          = Some (EGet API_KEY (mkReadings raw (fst th) (snd th))).
Proof.
  apply (upload_sends_fresh_readings (calm 12000) (world0 100)
           (snd one_upload)).
  by_run one_upload.
Defined.

(** X9.  An iteration that ends with [hour] outside (8, 20) has not
    touched the pump. *)
Theorem no_pump_outside_window env st w st' w' :
  tick env st w = (Ok st', w') ->
  in_window (hour st') = false ->
  pump_frame w w'.
Proof.
  intros H Hout.
  destruct (tick_pump env _ _ _ _ H)
    as [F | (_ & _ & [[_ Hin] | (e & He & _)])].
  - exact F.
  - destruct (Hin st' eq_refl) as [Hw _]. congruence.
  - discriminate He.
Qed.

Lemma no_pump_outside_window_witness :
  pump_frame (world0 100) (snd tick_at_nine).
Proof.
  apply (no_pump_outside_window (calm 20000) (mkLocals 0 9 true)
           (world0 100) (mkLocals 0 9 false) (snd tick_at_nine)).
  - by_run tick_at_nine.
  - reflexivity.
Defined.

(** X11.  The loop posts no more status messages than it has set the
    pump going; as long as every iteration runs to its end it has posted
    exactly one for each. *)
Theorem one_status_per_watering env n st w r w' :
  main_loop env n st w = (r, w') ->
  (statuses (trace w') + actuations (trace w)
   <= actuations (trace w') + statuses (trace w))%nat
  /\ (forall st', r = Ok st' ->
        (statuses (trace w') + actuations (trace w)
         = actuations (trace w') + statuses (trace w))%nat).
Proof. apply main_loop_posts. Qed.

Lemma one_status_per_watering_witness :
  (statuses (trace (snd six_dry_ticks)) + actuations (trace (world0 100))
   <= actuations (trace (snd six_dry_ticks)) + statuses (trace (world0 100)))%nat
  /\ (forall st', fst six_dry_ticks = Ok st' ->
        (statuses (trace (snd six_dry_ticks)) + actuations (trace (world0 100))
         = actuations (trace (snd six_dry_ticks))
           + statuses (trace (world0 100)))%nat).
Proof.
  apply (one_status_per_watering (calm 20000) 6 (mkLocals 0 8 false)
           (world0 100) (fst six_dry_ticks) (snd six_dry_ticks)).
  unfold six_dry_ticks. apply surjective_pairing.
Defined.

(** ** Failures and the start *)

(** X12.  When the hourly upload is due and the DHT22 does not answer,
    the exception leaves [main] four seconds into the iteration: no
    upload is made, the pump is untouched, the soil heater is off and
    the heater of the DHT22 is left on. *)
Theorem dht_failure_during_upload_leaves_main env n st w raw e :
  3600 <= clock w - last_upload st ->
  sleep_fault env (sleep_calls w) = None ->
  adc_read_u16 env (adc_calls w) = Ok raw ->
  sleep_fault env (S (sleep_calls w)) = None ->
  sleep_fault env (S (S (sleep_calls w))) = None ->
  dht_measure env (dht_calls w) = Raise e ->
  exists w',
    main_loop env (S n) st w = (Raise e, w')
    /\ clock w' = clock w + 1 + 2 + 1
    /\ pump_frame w w'
    /\ uploads (trace w') = uploads (trace w)
    /\ pins w' HEAT_PIN_SOIL = 0 /\ pins w' HEAT_PIN_TEMP = 1.
Proof.
  intros Hdue Hs1 Hadc Hs2 Hs3 Hdht.
  rewrite main_loop_step.
  unfold tick, bind, time_time, upload_branch.
  destruct (Z.geb_spec (clock w - last_upload st) 3600) as [_ | Hlt];
    [| lia].
  unfold upload_values, get_soil_humidity, get_temperature, bind, pin_value,
    time_sleep, read_u16, measure, pump_frame, uploads, actuations.
  cbn. rewrite Hs1. cbn. rewrite Hadc. cbn. rewrite Hs2. cbn.
  rewrite Hs3. cbn. rewrite Hdht. cbn.
  eexists. split; [reflexivity |]. cbn. auto 8.
Qed.

Lemma dht_failure_during_upload_leaves_main_witness :
  exists w',
    main_loop dht_silent 3 (mkLocals 0 7 false) (world0 3600)
    = (Raise (OSError 110), w')
    /\ clock w' = clock (world0 3600) + 1 + 2 + 1
    /\ pump_frame (world0 3600) w'
    /\ uploads (trace w') = uploads (trace (world0 3600))
    /\ pins w' HEAT_PIN_SOIL = 0 /\ pins w' HEAT_PIN_TEMP = 1.
Proof.
  apply (dht_failure_during_upload_leaves_main dht_silent 2
           (mkLocals 0 7 false) (world0 3600) 20000 (OSError 110)).
  - vm_compute. discriminate.
  - reflexivity.
  - reflexivity.
  - reflexivity.
  - reflexivity.
  - reflexivity.
Defined.

(** X13.  When [main] starts with the clock of [get_current_time]
    inside the window, on dry soil and with nothing failing, its first
    iteration waters: 91 seconds after the start the pump has run once
    and is stopped, and the flag is set. *)
Theorem start_inside_window_waters_at_once env w raw :
  in_window (tm_hour (localtime (clock w + 2 * 3600))) = true ->
  http_fault env (http_calls w) = None ->
  sleep_fault env (sleep_calls w) = None ->
  adc_read_u16 env (adc_calls w) = Ok raw ->
  16000 < raw ->
  sleep_fault env (S (sleep_calls w)) = None ->
  http_fault env (S (http_calls w)) = None ->
  sleep_fault env (S (S (sleep_calls w))) = None ->
  exists w',
    main env 1 w
    = (Ok (mkLocals (clock w) (tm_hour (localtime (clock w + 2 * 3600)))
             true), w')
    /\ clock w' = clock w + 1 + 60 + 30
    /\ actuations (trace w') = S (actuations (trace w))
    /\ pump_stopped w'.
Proof.
  intros Hin Hh1 Hs1 Hadc Hraw Hs2 Hh2 Hs3.
  rewrite tm_hour_localtime in *.
  unfold main, main_init, get_current_time, channel_update, bind, time_time,
    requests_post, ret.
  cbn. rewrite Hh1. cbn. rewrite tm_hour_localtime.
  unfold tick, bind, time_time, upload_branch.
  cbn [clock log count_http last_upload].
  destruct (Z.geb_spec (clock w - clock w) 3600) as [Hge | _]; [lia |].
  unfold ret at 1.
  match goal with
  | |- context [watering_branch env ?st ?w1] =>
      destruct (watering_branch_dry env st w1 raw Hin eq_refl Hs1 Hadc Hraw
                  Hs2 Hh2) as (w2 & Hw & Hc & Hp & Hsc & Htr);
      rewrite Hw
  end.
  unfold time_sleep. rewrite Hsc. cbn in Hs3 |- *. rewrite Hs3.
  eexists. split; [reflexivity |]. cbn.
  split; [cbn in Hc; lia |].
  split; [| exact Hp].
  unfold actuations. rewrite Htr. reflexivity.
Qed.

Lemma start_inside_window_waters_at_once_witness :
  exists w',
    main (calm 20000) 1 (world0 21600)
    = (Ok (mkLocals (clock (world0 21600))
             (tm_hour (localtime (clock (world0 21600) + 2 * 3600))) true),
       w')
    /\ clock w' = clock (world0 21600) + 1 + 60 + 30
    /\ actuations (trace w') = S (actuations (trace (world0 21600)))
    /\ pump_stopped w'.
Proof.
  apply (start_inside_window_waters_at_once (calm 20000) (world0 21600)
           20000).
  - vm_compute. reflexivity.
  - reflexivity.
  - reflexivity.
  - reflexivity.
  - lia.
  - reflexivity.
  - reflexivity.
  - reflexivity.
Defined.

(** ** Start-up *)

Section Startup_facts.

Variable env : Env.
Variable net : Start.

(** A sleep changes the clock, its own counter and the log, nothing
    else. *)
Lemma time_sleep_quiet s w r w' :
  time_sleep env s w = (r, w') ->
  pins w' = pins w /\ ena_duty w' = ena_duty w
  /\ http_calls w' = http_calls w /\ adc_calls w' = adc_calls w
  /\ sleep_calls w' = S (sleep_calls w)
  /\ actuations (trace w') = actuations (trace w).
Proof.
  unfold time_sleep, actuations. intros H. run_all H; auto 8.
Qed.

(** Waiting for the WiFi only sleeps. *)
Lemma wait_connected_frame fuel : forall k w r w',
  wait_connected env net fuel k w = (r, w') ->
  pins w' = pins w /\ ena_duty w' = ena_duty w
  /\ http_calls w' = http_calls w /\ adc_calls w' = adc_calls w
  /\ actuations (trace w') = actuations (trace w)
  /\ clock w <= clock w'.
Proof.
  induction fuel as [| fuel IH]; intros k w r w' H; cbn in H.
  - apply ret_inv in H. destruct H as [_ ->]. repeat split; lia.
  - destruct (wlan_isconnected net k).
    + apply ret_inv in H. destruct H as [_ ->]. repeat split; lia.
    + split_bind H.
      * destruct (time_sleep_quiet _ _ _ _ Hcall)
          as (P & E & Hh & A & _ & Ac).
        pose proof (time_sleep_clock env _ _ _ _ Hcall) as Hc. cbn in Hc.
        destruct (IH _ _ _ _ H) as (P' & E' & Hh' & A' & Ac' & Hc').
        repeat split; try congruence. lia.
      * destruct (time_sleep_quiet _ _ _ _ Hcall)
          as (P & E & Hh & A & _ & Ac).
        pose proof (time_sleep_clock env _ _ _ _ Hcall) as Hc.
        subst r. cbn in Hc. repeat split; try congruence. lia.
Qed.

(** The link comes up at the [k]-th call counted from the [i]-th. *)
Lemma wait_connected_up k : forall fuel i w,
  (forall j, (j < k)%nat -> wlan_isconnected net (i + j) = false) ->
  wlan_isconnected net (i + k) = true ->
  (forall j, (j < k)%nat -> sleep_fault env (sleep_calls w + j) = None) ->
  (k < fuel)%nat ->
  exists w',
    wait_connected env net fuel i w = (Ok true, w')
    /\ clock w' = clock w + 2 * Z.of_nat k
    /\ sleep_calls w' = (sleep_calls w + k)%nat.
Proof.
  induction k as [| k IH]; intros fuel i w Hdown Hup Hsleep Hfuel.
  - destruct fuel as [| fuel]; [lia |]. cbn.
    rewrite Nat.add_0_r in Hup. rewrite Hup.
    exists w. split; [reflexivity |]. split; lia.
  - destruct fuel as [| fuel]; [lia |]. cbn.
    pose proof (Hdown 0%nat ltac:(lia)) as Hd0.
    rewrite Nat.add_0_r in Hd0. rewrite Hd0.
    pose proof (Hsleep 0%nat ltac:(lia)) as Hs0.
    rewrite Nat.add_0_r in Hs0.
    unfold bind, time_sleep. rewrite Hs0.
    destruct (IH fuel (S i) (log (ESleep 2) (advance 2 (count_sleep w))))
      as (w' & Hrun & Hc & Hsc).
    + intros j Hj. replace (S i + j)%nat with (i + S j)%nat by lia.
      apply Hdown. lia.
    + replace (S i + k)%nat with (i + S k)%nat by lia. exact Hup.
    + intros j Hj. cbn.
      replace (S (sleep_calls w + j))%nat with (sleep_calls w + S j)%nat
        by lia.
      apply Hsleep. lia.
    + lia.
    + exists w'. split; [exact Hrun |]. cbn in Hc, Hsc. split; lia.
Qed.

(** The link never comes up. *)
Lemma wait_connected_down fuel : forall i w,
  (forall j, wlan_isconnected net j = false) ->
  (forall j, sleep_fault env j = None) ->
  exists w',
    wait_connected env net fuel i w = (Ok false, w')
    /\ clock w' = clock w + 2 * Z.of_nat fuel.
Proof.
  induction fuel as [| fuel IH]; intros i w Hdown Hsleep; cbn.
  - exists w. split; [reflexivity | lia].
  - rewrite Hdown. unfold bind, time_sleep. rewrite Hsleep.
    destruct (IH (S i) (log (ESleep 2) (advance 2 (count_sleep w)))
                Hdown Hsleep) as (w' & Hrun & Hc).
    exists w'. split; [exact Hrun |]. cbn in Hc. lia.
Qed.

End Startup_facts.

(** X14.  [connect_to_wifi] returns as soon as [isconnected] answers
    true: if that is its [k]-th call, it has slept 2 seconds [k] times
    and done nothing else. *)
Theorem connect_returns_when_link_up env net fuel k w :
  (forall j, (j < k)%nat -> wlan_isconnected net j = false) ->
  wlan_isconnected net k = true ->
  (forall j, (j < k)%nat -> sleep_fault env (sleep_calls w + j) = None) ->
  (k < fuel)%nat ->
  exists w',
    connect_to_wifi env net fuel w = (Ok true, w')
    /\ clock w' = clock w + 2 * Z.of_nat k
    /\ sleep_calls w' = (sleep_calls w + k)%nat
    /\ pins w' = pins w /\ ena_duty w' = ena_duty w
    /\ http_calls w' = http_calls w.
Proof.
  intros Hdown Hup Hsleep Hfuel. unfold connect_to_wifi.
  destruct (wait_connected_up env net k fuel 0%nat w Hdown Hup Hsleep Hfuel)
    as (w' & Hrun & Hc & Hsc).
  destruct (wait_connected_frame env net _ _ _ _ _ Hrun)
    as (P & E & Hh & _).
  exists w'. auto 8.
Qed.

Lemma connect_returns_when_link_up_witness :
  exists w',
    connect_to_wifi (calm 0) (wifi_after 3 1751347800) 10 (world0 0)
    = (Ok true, w')
    /\ clock w' = clock (world0 0) + 2 * Z.of_nat 3
    /\ sleep_calls w' = (sleep_calls (world0 0) + 3)%nat
    /\ pins w' = pins (world0 0) /\ ena_duty w' = ena_duty (world0 0)
    /\ http_calls w' = http_calls (world0 0).
Proof.
  apply (connect_returns_when_link_up (calm 0) (wifi_after 3 1751347800)
           10 3 (world0 0)).
  - intros j Hj. change (Nat.leb 3 j = false). apply Nat.leb_gt. lia.
  - reflexivity.
  - intros j Hj. reflexivity.
  - lia.
Defined.

(** X15.  If the WiFi never comes up (and no sleep is interrupted),
    [main] never gets past [connect_to_wifi]: however many polls are
    looked at, it is still waiting, has written no pin and has made no
    request. *)
Theorem main_waits_forever_without_wifi env net fuel_wifi fuel w :
  (forall j, wlan_isconnected net j = false) ->
  (forall j, sleep_fault env j = None) ->
  exists w',
    main_from_reset env net fuel_wifi fuel w = (Ok None, w')
    /\ clock w' = clock w + 2 * Z.of_nat fuel_wifi
    /\ pins w' = pins w /\ ena_duty w' = ena_duty w
    /\ http_calls w' = http_calls w /\ adc_calls w' = adc_calls w.
Proof.
  intros Hdown Hsleep.
  destruct (wait_connected_down env net fuel_wifi 0%nat w Hdown Hsleep)
    as (w' & Hrun & Hc).
  destruct (wait_connected_frame env net _ _ _ _ _ Hrun)
    as (P & E & Hh & A & _).
  exists w'. unfold main_from_reset, connect_to_wifi, bind.
  rewrite Hrun. auto 8.
Qed.

Lemma main_waits_forever_without_wifi_witness :
  exists w',
    main_from_reset (calm 20000) no_wifi 50 7 (world0 0) = (Ok None, w')
    /\ clock w' = clock (world0 0) + 2 * Z.of_nat 50
    /\ pins w' = pins (world0 0) /\ ena_duty w' = ena_duty (world0 0)
    /\ http_calls w' = http_calls (world0 0)
    /\ adc_calls w' = adc_calls (world0 0).
Proof.
  apply (main_waits_forever_without_wifi (calm 20000) no_wifi 50 7
           (world0 0)).
  - intros j. reflexivity.
  - intros j. reflexivity.
Defined.

(** X16.  If [ntptime.settime] raises, the exception leaves [main]
    there: nothing of lines 169-199 runs, so no status is posted, no pin
    is written and the loop is never entered. *)
Theorem failed_time_sync_leaves_main env net fuel_wifi fuel w w1 e :
  connect_to_wifi env net fuel_wifi w = (Ok true, w1) ->
  ntp_settime net = Raise e ->
  main_from_reset env net fuel_wifi fuel w = (Raise e, w1)
  /\ pins w1 = pins w /\ ena_duty w1 = ena_duty w
  /\ http_calls w1 = http_calls w /\ adc_calls w1 = adc_calls w.
Proof.
  intros Hrun Hntp.
  destruct (wait_connected_frame env net _ _ _ _ _ Hrun)
    as (P & E & Hh & A & _).
  unfold main_from_reset, bind, settime. rewrite Hrun, Hntp. auto 8.
Qed.

Lemma failed_time_sync_leaves_main_witness :
  main_from_reset (calm 20000) ntp_down 10 7 (world0 0)
  = (Raise (OSError 110), world0 0)
  /\ pins (world0 0) = pins (world0 0)
  /\ ena_duty (world0 0) = ena_duty (world0 0)
  /\ http_calls (world0 0) = http_calls (world0 0)
  /\ adc_calls (world0 0) = adc_calls (world0 0).
Proof.
  apply (failed_time_sync_leaves_main (calm 20000) ntp_down 10 7
           (world0 0) (world0 0) (OSError 110)).
  - reflexivity.
  - reflexivity.
Defined.

(** X17.  Once the WiFi is up and NTP has set the clock to [t], [main]
    posts "System ON!" and enters the loop with [last_upload = t], the
    flag unset and [hour] the hour of the day of [t] plus two hours,
    whatever the clock showed before. *)
Theorem synced_clock_seeds_the_loop env net fuel_wifi w w1 t :
  connect_to_wifi env net fuel_wifi w = (Ok true, w1) ->
  ntp_settime net = Ok t ->
  http_fault env (http_calls w1) = None ->
  exists w',
    main_from_reset env net fuel_wifi 0 w
    = (Ok (Some (mkLocals t (((t + 2 * 3600) / 3600) mod 24) false)), w')
    /\ clock w' = t
    /\ hd_error (trace w')
       = Some (EPost API_KEY
                 ("[" ++ format_timestamp (localtime t) ++ "] - System ON!")).
Proof.
  intros Hrun Hntp Hh.
  unfold main_from_reset, bind, settime, main, main_init, get_current_time,
    channel_update, bind, time_time, requests_post, ret.
  rewrite Hrun, Hntp. cbn. rewrite Hh. cbn. rewrite tm_hour_localtime.
  eexists. split; [reflexivity |]. cbn. auto.
Qed.

Lemma synced_clock_seeds_the_loop_witness :
  exists w',
    main_from_reset (calm 0) (wifi_after 0 1751347800) 10 0 (world0 0)
    = (Ok (Some (mkLocals 1751347800
                   (((1751347800 + 2 * 3600) / 3600) mod 24) false)), w')
    /\ clock w' = 1751347800
    /\ hd_error (trace w')
       = Some (EPost API_KEY
                 ("[" ++ format_timestamp (localtime 1751347800)
                  ++ "] - System ON!")).
Proof.
  apply (synced_clock_seeds_the_loop (calm 0) (wifi_after 0 1751347800) 10
           (world0 0) (world0 0) 1751347800).
  - reflexivity.
  - reflexivity.
  - reflexivity.
Defined.
